(** * Alert bridge (server/Server.js): suppression window, SMS adapter,
      broadcast and the three request handlers.

    The development follows the later of the two revisions of
    server/Server.js (the one with [ORIGINS] and the graceful shutdown);
    the functions modelled here are the same in both, except that the
    earlier one logs the two "Missing ..." precondition failures. *)

From Stdlib Require Import ZArith String Ascii List Bool Lia DecimalString Sorted.
From stdpp Require Import base option gmap strings.

Import ListNotations.
Local Open Scope string_scope.
Local Open Scope Z_scope.

(** ** JavaScript values read by the handlers *)

(** A Number.  A finite one is kept as the decimal [m * 10^e]: the digits
    that Number::toString prints determine the number, and [Math.round],
    [Math.max] and truthiness are exact on that form.  The sign of zero is
    not kept; none of the operations used below can tell [-0] from [0]. *)
Inductive JSNum : Type :=
| NaN
| PosInf
| NegInf
| Fin (m e : Z).

(** The scalar values a decoded JSON body or [process.env] can put into the
    fields the handlers read ([undefined] for a missing field). *)
Inductive JSValue : Type :=
| JUndefined
| JNull
| JBool (b : bool)
| JNumber (n : JSNum)
| JString (s : string).

(** A value that is only passed on: a scalar, or an array or object, which
    the handlers never look into. *)
Inductive Json : Type :=
| JScalar (v : JSValue)
| JCompound (text : string).

Definition dquote : string := String "034"%char EmptyString.

(** *** Number primitives *)

(** [a < b] on Numbers, false when either is NaN. *)
Definition num_lt (a b : JSNum) : bool :=
  match a, b with
  | NaN, _ | _, NaN => false
  | PosInf, _ => false
  | _, PosInf => true
  | _, NegInf => false
  | NegInf, _ => true
  | Fin m1 e1, Fin m2 e2 =>
      let e := Z.min e1 e2 in
      m1 * 10 ^ (e1 - e) <? m2 * 10 ^ (e2 - e)
  end.

(** Math.max of two arguments. *)
Definition Math_max (a b : JSNum) : JSNum :=
  match a, b with
  | NaN, _ | _, NaN => NaN
  | _, _ => if num_lt a b then b else a
  end.

(** The integer nearest to [m * 10^e], ties going up. *)
Definition round_half_up (m e : Z) : Z :=
  if 0 <=? e then m * 10 ^ e
  else (2 * m + 10 ^ (- e)) / (2 * 10 ^ (- e)).

(** Math.round. *)
Definition Math_round (n : JSNum) : JSNum :=
  match n with
  | Fin m e => Fin (round_half_up m e) 0
  | _ => n
  end.

(** *** Number::toString (radix 10) *)

Definition digits (n : Z) : string :=
  NilZero.string_of_uint (N.to_uint (Z.to_N n)).

Fixpoint zeros (n : nat) : string :=
  match n with O => EmptyString | S k => String "0" (zeros k) end.

(** Drops the trailing zeros of a digit string: the digits kept and the
    number of zeros dropped. *)
Fixpoint strip_zeros (s : string) : string * nat :=
  match s with
  | EmptyString => (EmptyString, O)
  | String c r =>
      let '(r', k) := strip_zeros r in
      match r' with
      | EmptyString => if Ascii.eqb c "0" then (EmptyString, S k) else (String c EmptyString, k)
      | _ => (String c r', k)
      end
  end.

Definition substring_from (n : nat) (s : string) : string :=
  substring n (String.length s - n) s.

(** The digits [s] (k of them, no trailing zero) of a positive number
    [0.s * 10^n], printed as the language does. *)
Definition render_digits (s : string) (n : Z) : string :=
  let k := Z.of_nat (String.length s) in
  if (k <=? n) && (n <=? 21) then s ++ zeros (Z.to_nat (n - k))
  else if (0 <? n) && (n <=? 21) then
    substring 0 (Z.to_nat n) s ++ "." ++ substring_from (Z.to_nat n) s
  else if (-6 <? n) && (n <=? 0) then "0." ++ zeros (Z.to_nat (- n)) ++ s
  else
    let x := n - 1 in
    let sign := if x <? 0 then "-" else "+" in
    let mant := if k =? 1 then s
                else substring 0 1 s ++ "." ++ substring_from 1 s in
    mant ++ "e" ++ sign ++ digits (Z.abs x).

Definition NumberToString (x : JSNum) : string :=
  match x with
  | NaN => "NaN"
  | PosInf => "Infinity"
  | NegInf => "-Infinity"
  | Fin m e =>
      if m =? 0 then "0"
      else
        let '(s, z) := strip_zeros (digits (Z.abs m)) in
        let n := Z.of_nat (String.length s) + Z.of_nat z + e in
        (if m <? 0 then "-" else EmptyString) ++ render_digits s n
  end.

(** *** Date.prototype.toISOString of the time value [t] (milliseconds
    since the epoch, UTC). *)

Definition pad (width : nat) (n : Z) : string :=
  let d := digits n in
  zeros (width - String.length d) ++ d.

(** Year, month and day of the day number [z] counted from 1970-01-01. *)
Definition civil_from_days (z : Z) : Z * Z * Z :=
  let z := z + 719468 in
  let era := z / 146097 in
  let doe := z - era * 146097 in
  let yoe := (doe - doe / 1460 + doe / 36524 - doe / 146096) / 365 in
  let doy := doe - (365 * yoe + yoe / 4 - yoe / 100) in
  let mp := (5 * doy + 2) / 153 in
  let d := doy - (153 * mp + 2) / 5 + 1 in
  let m := if mp <? 10 then mp + 3 else mp - 9 in
  let y := yoe + era * 400 + (if m <=? 2 then 1 else 0) in
  (y, m, d).

Definition toISOString (t : Z) : string :=
  let day := t / 86400000 in
  let ms := t mod 86400000 in
  let '(y, m, d) := civil_from_days day in
  let year :=
    if (0 <=? y) && (y <=? 9999) then pad 4 y
    else (if y <? 0 then "-" else "+") ++ pad 6 (Z.abs y) in
  year ++ "-" ++ pad 2 m ++ "-" ++ pad 2 d ++ "T" ++
  pad 2 (ms / 3600000) ++ ":" ++ pad 2 (ms / 60000 mod 60) ++ ":" ++
  pad 2 (ms / 1000 mod 60) ++ "." ++ pad 3 (ms mod 1000) ++ "Z".

(** ** Coercions and operators of the language *)

Definition num_truthy (n : JSNum) : bool :=
  match n with
  | NaN => false
  | Fin m _ => negb (m =? 0)
  | _ => true
  end.

Definition ToBoolean (v : JSValue) : bool :=
  match v with
  | JUndefined | JNull => false
  | JBool b => b
  | JNumber n => num_truthy n
  | JString s => negb (String.eqb s EmptyString)
  end.

Definition ToString (v : JSValue) : string :=
  match v with
  | JUndefined => "undefined"
  | JNull => "null"
  | JBool true => "true"
  | JBool false => "false"
  | JNumber n => NumberToString n
  | JString s => s
  end.

Definition json_truthy (j : Json) : bool :=
  match j with
  | JScalar v => ToBoolean v
  | JCompound _ => true
  end.

Definition nullish (v : JSValue) : bool :=
  match v with JUndefined | JNull => true | _ => false end.

(** [a || b] and [a ?? b]. *)
Definition or_else (a b : JSValue) : JSValue := if ToBoolean a then a else b.
Definition coalesce (a b : JSValue) : JSValue := if nullish a then b else a.
Definition num_or (a b : JSNum) : JSNum := if num_truthy a then a else b.

(** [v === "..."] against a string literal. *)
Definition strict_eq_string (v : JSValue) (lit : string) : bool :=
  match v with JString s => String.eqb s lit | _ => false end.

(** ** Environment (process.env) and the constants computed from it *)

Record Env : Type := {
  env_FASTAPI_URL : option string;
  env_TWILIO_ACCOUNT_SID : option string;
  env_TWILIO_AUTH_TOKEN : option string;
  env_TWILIO_MESSAGING_SID : option string;
  env_TWILIO_MESSAGING_SERVICE_SID : option string;
  env_ALERT_PHONE : option string
}.

Definition env_value (o : option string) : JSValue :=
  match o with Some s => JString s | None => JUndefined end.

Fixpoint strip_trailing_slashes (s : string) : string :=
  match s with
  | EmptyString => EmptyString
  | String c r =>
      match strip_trailing_slashes r with
      | EmptyString => if Ascii.eqb c "/" then EmptyString else String c EmptyString
      | r' => String c r'
      end
  end.

Definition FASTAPI_URL (env : Env) : string :=
  strip_trailing_slashes
    (ToString (or_else (env_value (env_FASTAPI_URL env))
                       (JString "https://backend-service-w8d7.onrender.com"))).

Definition TWILIO_ACCOUNT_SID (env : Env) : JSValue := env_value (env_TWILIO_ACCOUNT_SID env).
Definition TWILIO_AUTH_TOKEN (env : Env) : JSValue := env_value (env_TWILIO_AUTH_TOKEN env).
Definition TWILIO_MSID (env : Env) : JSValue :=
  or_else (env_value (env_TWILIO_MESSAGING_SID env))
          (env_value (env_TWILIO_MESSAGING_SERVICE_SID env)).
Definition DEFAULT_ALERT_TO (env : Env) : JSValue := env_value (env_ALERT_PHONE env).

Record TwilioClient : Type := { accountSid : JSValue; authToken : JSValue }.

Definition twilioClient (env : Env) : option TwilioClient :=
  if ToBoolean (TWILIO_ACCOUNT_SID env) && ToBoolean (TWILIO_AUTH_TOKEN env)
  then Some {| accountSid := TWILIO_ACCOUNT_SID env; authToken := TWILIO_AUTH_TOKEN env |}
  else None.

(** ** Data carried by requests, responses and events *)

(** One entry of the outcome's [overpressure] list. *)
Record Band : Type := { threshold : JSValue; radius_km : JSValue }.

(** The prediction outcome, at the shape the upstream service gives it:
    the fields the bridge reads, scalars but for [overpressure], which is
    missing or a list of bands, and the rest, which is only passed on. *)
Record Outcome : Type := {
  hazard_level : JSValue;
  energy_megatons : JSValue;
  red_alert : JSValue;
  overpressure : option (list Band);
  mode : JSValue;
  other_fields : list (string * Json)
}.

Record PredictRequest : Type := {
  lat : JSValue;
  lon : JSValue;
  notify_phone : JSValue;
  parameters : list (string * Json)
}.

Record SendRequest : Type := { send_to : JSValue; send_body : JSValue }.
Record ScheduleRequest : Type :=
  { sched_to : JSValue; sched_body : JSValue; sched_sendAt : JSValue }.

Record Summary : Type := {
  sum_hazard_level : JSValue;
  sum_energy_megatons : JSValue;
  sum_severe_radius_km : JSValue;
  sum_mode : JSValue
}.

Record BroadcastEvent : Type := {
  when : string;
  summary : Summary;
  location : JSValue * JSValue
}.

(** What [twilioClient.messages.create] is given. *)
Record MessageParams : Type := {
  msg_to : JSValue;
  msg_body : JSValue;
  messagingServiceSid : JSValue;
  sendAt : option JSValue;
  scheduleType : option string
}.

(** A thrown value, as far as the handlers look at it: its [message] and
    what [String(err)] gives. *)
Record Thrown : Type := { message : JSValue; as_string : string }.

Inductive TwilioOutcome : Type :=
| Created (sid : JSValue)
| Refused (err : Thrown).

Definition Provider : Type := MessageParams -> TwilioOutcome.

Record AxiosError : Type := { response_data : Json; ax_message : JSValue }.

Inductive UpstreamResult : Type :=
| Resolved (data : Outcome)
| Rejected (err : AxiosError).

(** [{ ok: true, sid }] or [{ ok: false, error }]. *)
Inductive DispatchResult : Type :=
| Sent (sid : JSValue)
| Failed (error : JSValue).

Definition ok (r : DispatchResult) : bool :=
  match r with Sent _ => true | Failed _ => false end.

Definition error (r : DispatchResult) : JSValue :=
  match r with Sent _ => JUndefined | Failed e => e end.

Inductive Body : Type :=
| BodyError (error : string)
| BodyDispatch (r : DispatchResult)
| BodyOutcome (data : Outcome)
| BodyFailure (error : string) (details : Json).

Record Response : Type := { status : Z; body : Body }.

Inductive LogArg : Type :=
| LVal (v : JSValue)
| LErr (e : Thrown)
| LJson (j : Json).

Inductive Adapter : Type := sendNow | sendScheduled.

(** What a handler does to the outside, in order.  Besides the calls that
    leave the process and the console lines, the trace records the two
    calls the properties below speak about: a suppression check with its
    verdict, and an entry into one of the two adapter functions. *)
Inductive Event : Type :=
| console_error (args : list LogArg)
| console_log (args : list LogArg)
| axios_post (url : string) (payload : PredictRequest) (timeout : Z)
| io_emit (name : string) (payload : BroadcastEvent)
| suppression_check (key : string) (admitted : bool)
| adapter_call (which : Adapter) (to body : JSValue)
| messages_create (p : MessageParams).

(** ** The process state and the effect monad of the handlers *)

Record World : Type := {
  lastSendByKey : gmap string Z;
  trace : list Event
}.

Definition Eff (A : Type) : Type := World -> A * World.

Definition ret {A} (a : A) : Eff A := fun w => (a, w).
Definition bind {A B} (m : Eff A) (k : A -> Eff B) : Eff B :=
  fun w => let '(a, w') := m w in k a w'.

Notation "x <- m ;; k" := (bind m (fun x => k))
  (at level 62, m at next level, right associativity).
Notation "m ;;; k" := (bind m (fun _ => k))
  (at level 62, right associativity).

Definition log (e : Event) : Eff unit :=
  fun w => (tt, {| lastSendByKey := lastSendByKey w; trace := trace w ++ [e] |}).

Definition when_ (b : bool) (m : Eff unit) : Eff unit := if b then m else ret tt.

(** ** Suppression window *)

Definition DEBOUNCE_MS : Z := 90 * 1000.

(** [shouldSend(key)] with the clock reading [now] of its [Date.now()],
    on the map it reads and writes. *)
Definition shouldSend (now : Z) (key : string) (m : gmap string Z) : bool * gmap string Z :=
  let last := match m !! key with
              | Some t => if t =? 0 then 0 else t
              | None => 0
              end in
  if now - last <? DEBOUNCE_MS then (false, m)
  else (true, <[key := now]> m).

Definition check (now : Z) (key : string) : Eff bool :=
  fun w =>
    let '(b, m) := shouldSend now key (lastSendByKey w) in
    (b, {| lastSendByKey := m; trace := trace w ++ [suppression_check key b] |}).

(** ** Twilio helpers *)

Definition requireTwilio (env : Env) : Eff bool :=
  match twilioClient env with
  | None =>
      log (console_error
        [LVal (JString "[twilio] not configured: set TWILIO_ACCOUNT_SID & TWILIO_AUTH_TOKEN")]) ;;;
      ret false
  | Some _ =>
      if negb (ToBoolean (TWILIO_MSID env)) then
        log (console_error
          [LVal (JString "[twilio] missing TWILIO_MESSAGING_SID or TWILIO_MESSAGING_SERVICE_SID")]) ;;;
        ret false
      else ret true
  end.

Definition err_message_or_self (err : Thrown) : LogArg :=
  if ToBoolean (message err) then LVal (message err) else LErr err.

Definition err_message_or_string (err : Thrown) : JSValue :=
  or_else (message err) (JString (as_string err)).

Definition missing_to : string := "Missing " ++ dquote ++ "to" ++ dquote ++ " number".
Definition missing_body : string := "Missing " ++ dquote ++ "body" ++ dquote.

Definition sendImmediateSMS (env : Env) (provider : Provider) (to body : JSValue)
  : Eff DispatchResult :=
  log (adapter_call sendNow to body) ;;;
  configured <- requireTwilio env ;;
  if negb configured then ret (Failed (JString "Twilio not configured"))
  else if negb (ToBoolean to) then ret (Failed (JString missing_to))
  else if negb (ToBoolean body) then ret (Failed (JString missing_body))
  else
    let p := {| msg_to := to; msg_body := body;
                messagingServiceSid := TWILIO_MSID env;
                sendAt := None; scheduleType := None |} in
    log (messages_create p) ;;;
    match provider p with
    | Created sid =>
        log (console_log [LVal (JString "[twilio] SMS created:"); LVal sid]) ;;;
        ret (Sent sid)
    | Refused err =>
        log (console_error [LVal (JString "[twilio] send error:"); err_message_or_self err]) ;;;
        ret (Failed (err_message_or_string err))
    end.

Definition scheduleSMS (env : Env) (provider : Provider) (to body sendAtISO : JSValue)
  : Eff DispatchResult :=
  log (adapter_call sendScheduled to body) ;;;
  configured <- requireTwilio env ;;
  if negb configured then ret (Failed (JString "Twilio not configured"))
  else if negb (ToBoolean to) then ret (Failed (JString missing_to))
  else if negb (ToBoolean body) then ret (Failed (JString missing_body))
  else
    let p := {| msg_to := to; msg_body := body;
                messagingServiceSid := TWILIO_MSID env;
                sendAt := Some sendAtISO; scheduleType := Some "fixed" |} in
    log (messages_create p) ;;;
    match provider p with
    | Created sid =>
        log (console_log [LVal (JString "[twilio] scheduled:"); LVal sid;
                          LVal (JString "sendAt:"); LVal sendAtISO]) ;;;
        ret (Sent sid)
    | Refused err =>
        log (console_error [LVal (JString "[twilio] schedule error:"); err_message_or_self err]) ;;;
        ret (Failed (err_message_or_string err))
    end.

(** ** Manual SMS handlers *)

Definition send_default_body : string := "Test from Node âœ…".
Definition schedule_default_body : string := "Scheduled from Node â°".

Definition send_sms_to (env : Env) (req : SendRequest) : JSValue :=
  or_else (send_to req) (DEFAULT_ALERT_TO env).
Definition send_sms_body (req : SendRequest) : JSValue :=
  or_else (send_body req) (JString send_default_body).
Definition send_sms_key (env : Env) (req : SendRequest) : string :=
  "send|" ++ ToString (send_sms_to env req) ++ "|" ++ ToString (send_sms_body req).

(** POST /api/send-sms *)
Definition send_sms (env : Env) (provider : Provider) (now : Z) (req : SendRequest)
  : Eff Response :=
  let to := send_sms_to env req in
  let body := send_sms_body req in
  let key := send_sms_key env req in
  admitted <- check now key ;;
  if negb admitted then
    ret {| status := 429; body := BodyError "Debounced duplicate send" |}
  else
    r <- sendImmediateSMS env provider to body ;;
    if negb (ok r) then ret {| status := 400; body := BodyDispatch r |}
    else ret {| status := 200; body := BodyDispatch r |}.

Definition schedule_sms_to (env : Env) (req : ScheduleRequest) : JSValue :=
  or_else (sched_to req) (DEFAULT_ALERT_TO env).
Definition schedule_sms_body (req : ScheduleRequest) : JSValue :=
  or_else (sched_body req) (JString schedule_default_body).
(** [t0] is the clock reading of the [Date.now()] in the default. *)
Definition schedule_sms_sendAtISO (t0 : Z) (req : ScheduleRequest) : JSValue :=
  or_else (sched_sendAt req) (JString (toISOString (t0 + 60000))).
Definition schedule_sms_key (env : Env) (t0 : Z) (req : ScheduleRequest) : string :=
  "sched|" ++ ToString (schedule_sms_to env req) ++ "|" ++
  ToString (schedule_sms_body req) ++ "|" ++ ToString (schedule_sms_sendAtISO t0 req).

(** POST /api/schedule-sms; [t0] is read for the default of [sendAt],
    [now] inside [shouldSend]. *)
Definition schedule_sms (env : Env) (provider : Provider) (t0 now : Z) (req : ScheduleRequest)
  : Eff Response :=
  let to := schedule_sms_to env req in
  let body := schedule_sms_body req in
  let sendAtISO := schedule_sms_sendAtISO t0 req in
  let key := schedule_sms_key env t0 req in
  admitted <- check now key ;;
  if negb admitted then
    ret {| status := 429; body := BodyError "Debounced duplicate schedule" |}
  else
    r <- scheduleSMS env provider to body sendAtISO ;;
    if negb (ok r) then ret {| status := 400; body := BodyDispatch r |}
    else ret {| status := 200; body := BodyDispatch r |}.

(** ** Two primitives of the language kept as parameters

    [Number(s)] on a string and [Number.prototype.toFixed(3)] depend on the
    binary value of a Number, which the decimal form does not fix; the
    prediction handler is defined over any pair of functions for them.  The
    two below read the decimal digits and serve to run the handler. *)

Fixpoint digits_value (s : string) (acc : Z) : option Z :=
  match s with
  | EmptyString => Some acc
  | String c r =>
      let d := Z.of_nat (nat_of_ascii c) - 48 in
      if (0 <=? d) && (d <=? 9) then digits_value r (10 * acc + d) else None
  end.

Fixpoint split_at_dot (s : string) : string * option string :=
  match s with
  | EmptyString => (EmptyString, None)
  | String c r =>
      if Ascii.eqb c "." then (EmptyString, Some r)
      else let '(a, b) := split_at_dot r in (String c a, b)
  end.

Definition unsigned_decimal (s : string) : option JSNum :=
  let '(ip, fp) := split_at_dot s in
  let fp := match fp with Some f => f | None => EmptyString end in
  if String.eqb (ip ++ fp) EmptyString then None
  else match digits_value (ip ++ fp) 0 with
       | Some m => Some (Fin m (- Z.of_nat (String.length fp)))
       | None => None
       end.

(** Plain decimal literals; every other string is taken as not a number. *)
Definition StringToNumber_decimal (s : string) : JSNum :=
  match s with
  | EmptyString => Fin 0 0
  | String "-" r =>
      match unsigned_decimal r with
      | Some (Fin m e) => Fin (- m) e
      | _ => NaN
      end
  | _ => match unsigned_decimal s with Some n => n | None => NaN end
  end.

Definition toFixed3_decimal (x : JSNum) : string :=
  match x with
  | Fin m e =>
      if 21 <? Z.of_nat (String.length (digits (Z.abs m))) + e then NumberToString x
      else
        let n := round_half_up (Z.abs m) (e + 3) in
        (if m <? 0 then "-" else EmptyString) ++
        digits (n / 1000) ++ "." ++ pad 3 (n mod 1000)
  | _ => NumberToString x
  end.

(** The fixed pieces of the alert text. *)
Definition body_intro : string := "ðŸš¨ EVACUATE NOW â€“ area near ".
Definition body_severe_zone : string := "Severe zone â‰ˆ ".
Definition body_suffix : string := "If coastal, go inland/uphill. Help: 104 â€“ Disaster Mgmt Dept".

Section PredictionBridge.

(** [Number(s)] for a string [s], and [x.toFixed(3)] for a Number [x]. *)
Variable StringToNumber : string -> JSNum.
Variable toFixed3 : JSNum -> string.

Definition ToNumber (v : JSValue) : JSNum :=
  match v with
  | JUndefined => NaN
  | JNull => Fin 0 0
  | JBool true => Fin 1 0
  | JBool false => Fin 0 0
  | JNumber n => n
  | JString s => StringToNumber s
  end.

(** The [severe_radius_km] of the broadcast summary:
    [data?.overpressure?.find((b) => b.threshold === "5 psi")?.radius_km ?? null] *)
Definition severe_radius_km (data : Outcome) : JSValue :=
  coalesce
    (match overpressure data with
     | None => JUndefined
     | Some bands =>
         match List.find (fun b => strict_eq_string (threshold b) "5 psi") bands with
         | None => JUndefined
         | Some b => radius_km b
         end
     end)
    JNull.

(** The [severeRadius] of the SMS leg: the same chain, ended by [?? "?"]. *)
Definition severeRadius (data : Outcome) : JSValue :=
  coalesce
    (match overpressure data with
     | None => JUndefined
     | Some bands =>
         match List.find (fun b => strict_eq_string (threshold b) "5 psi") bands with
         | None => JUndefined
         | Some b => radius_km b
         end
     end)
    (JString "?").

Definition red_alert_event (t_when : Z) (req : PredictRequest) (data : Outcome) : BroadcastEvent :=
  {| when := toISOString t_when;
     summary := {| sum_hazard_level := hazard_level data;
                   sum_energy_megatons := energy_megatons data;
                   sum_severe_radius_km := severe_radius_km data;
                   sum_mode := mode data |};
     location := (lat req, lon req) |}.

(** [c?.toFixed?.(3) ?? c] inside a template. *)
Definition coordinate (c : JSValue) : string :=
  match c with
  | JNumber n => toFixed3 n
  | _ => ToString c
  end.

(** [Math.max(6, Math.round(Number(severeRadius) || 0))] *)
Definition safe_distance (severe : JSValue) : JSNum :=
  Math_max (Fin 6 0) (Math_round (num_or (ToNumber severe) (Fin 0 0))).

Definition alert_body (req : PredictRequest) (severe : JSValue) : string :=
  (body_intro ++ coordinate (lat req) ++ ",") ++
  (coordinate (lon req) ++ ". ") ++
  ("Move beyond " ++ NumberToString (safe_distance severe) ++ "km from impact point. ") ++
  (body_severe_zone ++ ToString severe ++ "km. ") ++
  body_suffix.

Definition alert_key (to : JSValue) (req : PredictRequest) (severe : JSValue) : string :=
  "alert|" ++ ToString to ++ "|" ++ ToString (lat req) ++ "|" ++
  ToString (lon req) ++ "|" ++ ToString severe.

Definition failure_details (err : AxiosError) : Json :=
  if json_truthy (response_data err) then response_data err
  else JScalar (ax_message err).

(** POST /api/predict.  [upstream] is how the awaited [axios.post] ended,
    [t_when] the clock behind [new Date()] of the broadcast, [now] the one
    read inside [shouldSend]. *)
Definition predict (env : Env) (provider : Provider) (upstream : UpstreamResult)
    (t_when now : Z) (req : PredictRequest) : Eff Response :=
  log (axios_post (FASTAPI_URL env ++ "/predict") req 15000) ;;;
  match upstream with
  | Resolved data =>
      log (io_emit "red_alert" (red_alert_event t_when req data)) ;;;
      when_ (ToBoolean (red_alert data))
        (let to := or_else (notify_phone req) (DEFAULT_ALERT_TO env) in
         if negb (ToBoolean to) then
           log (console_error [LVal (JString
             ("[twilio] " ++ dquote ++ "to" ++ dquote ++
              " number missing: set ALERT_PHONE env or send notify_phone in body."))])
         else
           let severe := severeRadius data in
           let body := alert_body req severe in
           let key := alert_key to req severe in
           admitted <- check now key ;;
           if admitted then
             r2 <- sendImmediateSMS env provider to (JString body) ;;
             when_ (negb (ok r2))
               (log (console_error
                  [LVal (JString "[twilio] red alert send failed:");
                   LVal (error r2)]))
           else
             log (console_log
               [LVal (JString "[alerts] skipped duplicate within debounce window")])) ;;;
      ret {| status := 200; body := BodyOutcome data |}
  | Rejected err =>
      let details := failure_details err in
      log (console_error [LVal (JString "[/api/predict] ERROR:"); LJson details]) ;;;
      ret {| status := 400; body := BodyFailure "Prediction failed" details |}
  end.

End PredictionBridge.

(** ** Sample configurations, requests and outcomes for the runs below *)

Definition sample_env : Env :=
  {| env_FASTAPI_URL := Some "http://localhost:8000/";
     env_TWILIO_ACCOUNT_SID := Some "AC0001";
     env_TWILIO_AUTH_TOKEN := Some "secret";
     env_TWILIO_MESSAGING_SID := Some "MG0001";
     env_TWILIO_MESSAGING_SERVICE_SID := None;
     env_ALERT_PHONE := Some "+15550100" |}.

(** No Twilio variable is set. *)
Definition bare_env : Env :=
  {| env_FASTAPI_URL := None;
     env_TWILIO_ACCOUNT_SID := None;
     env_TWILIO_AUTH_TOKEN := None;
     env_TWILIO_MESSAGING_SID := None;
     env_TWILIO_MESSAGING_SERVICE_SID := None;
     env_ALERT_PHONE := None |}.

Definition accepting : Provider := fun _ => Created (JString "SM0001").

Definition idle : World := {| lastSendByKey := ∅; trace := [] |}.

Definition sample_send : SendRequest :=
  {| send_to := JUndefined; send_body := JString "Flood warning" |}.

(** A schedule request that leaves [sendAt] out. *)
Definition sample_schedule : ScheduleRequest :=
  {| sched_to := JString "+15550100"; sched_body := JString "Flood warning";
     sched_sendAt := JUndefined |}.

Definition sample_request : PredictRequest :=
  {| lat := JNumber (Fin 17385 (-3)); lon := JNumber (Fin 78487 (-3));
     notify_phone := JUndefined; parameters := [] |}.

Definition sample_outcome : Outcome :=
  {| hazard_level := JString "severe";
     energy_megatons := JNumber (Fin 15 0);
     red_alert := JBool true;
     overpressure := Some [ {| threshold := JString "1 psi"; radius_km := JNumber (Fin 305 (-1)) |};
                            {| threshold := JString "5 psi"; radius_km := JNumber (Fin 123 (-1)) |} ];
     mode := JString "airburst";
     other_fields := [] |}.

(** ** Reading a trace *)

Local Open Scope list_scope.

Definition is_io_emit (e : Event) : bool :=
  match e with io_emit _ _ => true | _ => false end.
Definition is_suppression_check (e : Event) : bool :=
  match e with suppression_check _ _ => true | _ => false end.
Definition is_adapter_call (e : Event) : bool :=
  match e with adapter_call _ _ _ => true | _ => false end.
Definition is_messages_create (e : Event) : bool :=
  match e with messages_create _ => true | _ => false end.

Definition count (p : Event -> bool) (tr : list Event) : nat :=
  List.length (List.filter p tr).

(** The provider is configured: both credentials and a messaging-service
    identity are set (and not empty). *)
Definition provider_configured (env : Env) : bool :=
  ToBoolean (TWILIO_ACCOUNT_SID env) && ToBoolean (TWILIO_AUTH_TOKEN env) &&
  ToBoolean (TWILIO_MSID env).

(** The stored time a check compares with: that of the key, or 0. *)
Definition last_or_zero (key : string) (m : gmap string Z) : Z :=
  match m !! key with Some t => t | None => 0 end.

(** The three precondition failures of one adapter call, stated once for
    both adapters: [run] is the call, started in [w]. *)
Definition precondition_failures (env : Env) (to body : JSValue) (w : World)
    (run : DispatchResult * World) : Prop :=
  let quiet :=
    count is_messages_create (trace run.2) = count is_messages_create (trace w) /\
    lastSendByKey run.2 = lastSendByKey w in
  (provider_configured env = false ->
     run.1 = Failed (JString "Twilio not configured") /\ quiet) /\
  (provider_configured env = true -> ToBoolean to = false ->
     run.1 = Failed (JString missing_to) /\ quiet) /\
  (provider_configured env = true -> ToBoolean to = true -> ToBoolean body = false ->
     run.1 = Failed (JString missing_body) /\ quiet).

(** What one adapter call adds to the trace after its own entry: console
    lines and at most one [messages.create] request, made exactly when the
    three preconditions hold. *)
Definition adapter_events (env : Env) (to body : JSValue) (es : list Event) : Prop :=
  count is_adapter_call es = O /\
  count is_io_emit es = O /\
  count is_suppression_check es = O /\
  count is_messages_create es =
    (if provider_configured env && ToBoolean to && ToBoolean body then 1 else 0)%nat.

Definition dispatch_response (r : DispatchResult) : Response :=
  {| status := if ok r then 200 else 400; body := BodyDispatch r |}.

(** The radius of the "5 psi" band of the outcome's overpressure list:
    that of the first band with this threshold, [undefined] when there is
    no list or no such band. *)
Definition band_radius_5psi (data : Outcome) : JSValue :=
  match overpressure data with
  | None => JUndefined
  | Some bands =>
      match List.find (fun b => strict_eq_string (threshold b) "5 psi") bands with
      | None => JUndefined
      | Some b => radius_km b
      end
  end.

(** ** Runs of suppression checks, and the provider requests of a trace *)

(** The times at which the calls on [key] are admitted, in a run of
    [shouldSend] calls given by clock reading and key. *)
Fixpoint admitted_times (key : string) (calls : list (Z * string)) (m : gmap string Z)
  : list Z :=
  match calls with
  | [] => []
  | (now, k) :: rest =>
      let '(b, m1) := shouldSend now k m in
      (if b && String.eqb k key then [now] else []) ++ admitted_times key rest m1
  end.

(** The map after such a run. *)
Fixpoint replay (calls : list (Z * string)) (m : gmap string Z) : gmap string Z :=
  match calls with
  | [] => m
  | (now, k) :: rest => replay rest (shouldSend now k m).2
  end.

(** What [twilioClient.messages.create] was asked, in order. *)
Definition requests (tr : list Event) : list MessageParams :=
  flat_map (fun e => match e with messages_create p => [p] | _ => [] end) tr.

Definition immediate_params (env : Env) (to body : JSValue) : MessageParams :=
  {| msg_to := to; msg_body := body; messagingServiceSid := TWILIO_MSID env;
     sendAt := None; scheduleType := None |}.

Definition scheduled_params (env : Env) (to body sendAtISO : JSValue) : MessageParams :=
  {| msg_to := to; msg_body := body; messagingServiceSid := TWILIO_MSID env;
     sendAt := Some sendAtISO; scheduleType := Some "fixed" |}.

(** How a provider's answer becomes a dispatch result. *)
Definition dispatch_result (o : TwilioOutcome) : DispatchResult :=
  match o with
  | Created sid => Sent sid
  | Refused err => Failed (err_message_or_string err)
  end.

(** A variable of [process.env] that is set and not empty. *)
Definition env_set (o : option string) : bool :=
  match o with Some s => negb (String.eqb s EmptyString) | None => false end.

(** ** The earlier revision of the Twilio helpers

    It knows one name for the messaging service and logs the two
    "Missing ..." failures. *)

Definition TWILIO_MSID_v1 (env : Env) : JSValue := env_value (env_TWILIO_MESSAGING_SID env).

Definition requireTwilio_v1 (env : Env) : Eff bool :=
  match twilioClient env with
  | None =>
      log (console_error
        [LVal (JString "[twilio] not configured: set TWILIO_ACCOUNT_SID & TWILIO_AUTH_TOKEN")]) ;;;
      ret false
  | Some _ =>
      if negb (ToBoolean (TWILIO_MSID_v1 env)) then
        log (console_error [LVal (JString "[twilio] TWILIO_MESSAGING_SID missing")]) ;;;
        ret false
      else ret true
  end.

Definition missing_to_line : string :=
  "[twilio] Missing " ++ dquote ++ "to" ++ dquote ++ " number (no req.body.to and no ALERT_PHONE).".
Definition missing_body_line : string := "[twilio] Missing " ++ dquote ++ "body" ++ dquote.

Definition sendImmediateSMS_v1 (env : Env) (provider : Provider) (to body : JSValue)
  : Eff DispatchResult :=
  log (adapter_call sendNow to body) ;;;
  configured <- requireTwilio_v1 env ;;
  if negb configured then ret (Failed (JString "Twilio not configured"))
  else if negb (ToBoolean to) then
    log (console_error [LVal (JString missing_to_line)]) ;;;
    ret (Failed (JString missing_to))
  else if negb (ToBoolean body) then
    log (console_error [LVal (JString missing_body_line)]) ;;;
    ret (Failed (JString missing_body))
  else
    let p := {| msg_to := to; msg_body := body;
                messagingServiceSid := TWILIO_MSID_v1 env;
                sendAt := None; scheduleType := None |} in
    log (messages_create p) ;;;
    match provider p with
    | Created sid =>
        log (console_log [LVal (JString "[twilio] SMS created:"); LVal sid]) ;;;
        ret (Sent sid)
    | Refused err =>
        log (console_error [LVal (JString "[twilio] send error:"); err_message_or_self err]) ;;;
        ret (Failed (err_message_or_string err))
    end.

(** A trace without its console lines. *)
Definition silent (tr : list Event) : list Event :=
  List.filter (fun e => match e with console_error _ | console_log _ => false | _ => true end) tr.

(** ** The browser's side of the broadcast (src/App.js) *)

(** A scalar after the JSON encoding of the socket: a Number that is not
    finite arrives as null. *)
Definition wire_value (v : JSValue) : JSValue :=
  match v with
  | JNumber (Fin m e) => JNumber (Fin m e)
  | JNumber _ => JNull
  | _ => v
  end.

Definition wire_event (ev : BroadcastEvent) : BroadcastEvent :=
  {| when := when ev;
     summary := {| sum_hazard_level := wire_value (sum_hazard_level (summary ev));
                   sum_energy_megatons := wire_value (sum_energy_megatons (summary ev));
                   sum_severe_radius_km := wire_value (sum_severe_radius_km (summary ev));
                   sum_mode := wire_value (sum_mode (summary ev)) |};
     location := (wire_value (fst (location ev)), wire_value (snd (location ev))) |}.

(** The banner the "red_alert" listener sets. *)
Record PushAlert : Type := { text : string; at_ : string }.

Definition banner_intro : string := "🚨 RED ALERT: ".
Definition banner_sep : string := " • ".

Section Banner.

(** [String.prototype.toUpperCase]. *)
Variable toUpperCase : string -> string.

Definition red_alert_banner (payload : BroadcastEvent) : PushAlert :=
  {| text :=
       (banner_intro ++
        toUpperCase (ToString (or_else (sum_hazard_level (summary payload)) (JString EmptyString))) ++
        banner_sep) ++
       ("Severe radius " ++
        ToString (coalesce (sum_severe_radius_km (summary payload)) (JString "?")) ++ " km");
     at_ := when payload |}.

End Banner.

(** [n] slashes. *)
Fixpoint slashes (n : nat) : string :=
  match n with O => EmptyString | S k => String "/" (slashes k) end.

(** An outcome that is no red alert and has no overpressure list. *)
Definition calm_outcome : Outcome :=
  {| hazard_level := JString "low"; energy_megatons := JNumber (Fin 2 0);
     red_alert := JBool false; overpressure := None;
     mode := JString "airburst"; other_fields := [] |}.

(** ** Allowed origins (CLIENT_ORIGIN) *)

(** The white space and line terminators [trim] removes, in UTF-8: one
    byte (TAB, LF, VT, FF, CR, SP), two (U+00A0) or three (U+1680,
    U+2000..U+200A, U+2028, U+2029, U+202F, U+205F, U+3000, U+FEFF). *)
Definition space1 (c : ascii) : bool :=
  let n := nat_of_ascii c in (Nat.leb 9 n && Nat.leb n 13) || Nat.eqb n 32.

Definition space2 (c c1 : ascii) : bool :=
  Nat.eqb (nat_of_ascii c) 194 && Nat.eqb (nat_of_ascii c1) 160.

Definition space3 (c c1 c2 : ascii) : bool :=
  let n := nat_of_ascii c in
  let n1 := nat_of_ascii c1 in
  let n2 := nat_of_ascii c2 in
  (Nat.eqb n 225 && Nat.eqb n1 154 && Nat.eqb n2 128) ||
  (Nat.eqb n 226 && Nat.eqb n1 128 &&
   ((Nat.leb 128 n2 && Nat.leb n2 138) || Nat.eqb n2 168 || Nat.eqb n2 169 || Nat.eqb n2 175)) ||
  (Nat.eqb n 226 && Nat.eqb n1 129 && Nat.eqb n2 159) ||
  (Nat.eqb n 227 && Nat.eqb n1 128 && Nat.eqb n2 128) ||
  (Nat.eqb n 239 && Nat.eqb n1 187 && Nat.eqb n2 191).

(** The string begins with a white-space character. *)
Definition starts_ws (s : string) : bool :=
  match s with
  | String c r =>
      space1 c ||
      match r with
      | String c1 r1 =>
          space2 c c1 ||
          match r1 with
          | String c2 _ => space3 c c1 c2
          | EmptyString => false
          end
      | EmptyString => false
      end
  | EmptyString => false
  end.

(** The string is made of white-space characters only. *)
Fixpoint all_ws (s : string) : bool :=
  match s with
  | EmptyString => true
  | String c r =>
      if space1 c then all_ws r
      else match r with
           | String c1 r1 =>
               if space2 c c1 then all_ws r1
               else match r1 with
                    | String c2 r2 => if space3 c c1 c2 then all_ws r2 else false
                    | EmptyString => false
                    end
           | EmptyString => false
           end
  end.

Fixpoint trimStart (s : string) : string :=
  match s with
  | EmptyString => EmptyString
  | String c r =>
      if space1 c then trimStart r
      else match r with
           | String c1 r1 =>
               if space2 c c1 then trimStart r1
               else match r1 with
                    | String c2 r2 => if space3 c c1 c2 then trimStart r2 else s
                    | EmptyString => s
                    end
           | EmptyString => s
           end
  end.

Fixpoint trimEnd (s : string) : string :=
  match s with
  | EmptyString => EmptyString
  | String c r => if all_ws s then EmptyString else String c (trimEnd r)
  end.

(** [s.trim()] *)
Definition trim (s : string) : string := trimEnd (trimStart s).

(** [s.split(",")] *)
Fixpoint split_comma (s : string) : list string :=
  match s with
  | EmptyString => [EmptyString]
  | String c r =>
      if Ascii.eqb c "," then EmptyString :: split_comma r
      else match split_comma r with
           | h :: t => String c h :: t
           | [] => [String c EmptyString]
           end
  end.

Fixpoint has_comma (s : string) : bool :=
  match s with
  | EmptyString => false
  | String c r => Ascii.eqb c "," || has_comma r
  end.

(** [ORIGINS], from what [process.env.CLIENT_ORIGIN] holds. *)
Definition ORIGINS (client_origin : option string) : list string :=
  let rawOrigins :=
    ToString (or_else (env_value client_origin) (JString "http://localhost:3000")) in
  List.filter (fun s => negb (String.eqb s EmptyString))
    (List.map trim (split_comma rawOrigins)).

(** [pieces.join(",")], the text whose pieces between commas are [pieces]. *)
Fixpoint join_comma (pieces : list string) : string :=
  match pieces with
  | [] => EmptyString
  | p :: rest =>
      match rest with
      | [] => p
      | _ :: _ => p ++ "," ++ join_comma rest
      end
  end.

(** * Properties *)

(** ** Suppression window *)

Lemma shouldSend_unfold now key m :
  shouldSend now key m =
  if now - last_or_zero key m <? DEBOUNCE_MS then (false, m)
  else (true, <[key := now]> m).
Proof.
  unfold shouldSend, last_or_zero.
  destruct (m !! key) as [t|]; [|reflexivity].
  destruct (Z.eqb_spec t 0) as [->|]; reflexivity.
Qed.

Lemma shouldSend_admitted now key m :
  (shouldSend now key m).1 = true ->
  shouldSend now key m = (true, <[key := now]> m).
Proof.
  rewrite shouldSend_unfold. destruct (_ <? _); [discriminate | reflexivity].
Qed.

Lemma shouldSend_after_admission t1 t2 key m :
  t2 - t1 < DEBOUNCE_MS ->
  shouldSend t2 key (<[key := t1]> m) = (false, <[key := t1]> m).
Proof.
  intros H. rewrite shouldSend_unfold. unfold last_or_zero.
  rewrite lookup_insert_eq.
  destruct (Z.ltb_spec (t2 - t1) DEBOUNCE_MS); [reflexivity | lia].
Qed.

(** The four cases of a call, by the entry of the key and the clock.  The
    last one is the [|| 0] of the source at work: a key with no entry is
    compared with time 0, which differs from an admission only while the
    clock reads less than 90 000 ms, the first 90 seconds of 1970. *)
Lemma shouldSend_cases (now : Z) (key : string) (m : gmap string Z) :
  (forall last, m !! key = Some last -> now - last < DEBOUNCE_MS ->
     shouldSend now key m = (false, m)) /\
  (forall last, m !! key = Some last -> DEBOUNCE_MS <= now - last ->
     shouldSend now key m = (true, <[key := now]> m)) /\
  (m !! key = None -> DEBOUNCE_MS <= now ->
     shouldSend now key m = (true, <[key := now]> m)) /\
  (m !! key = None -> now < DEBOUNCE_MS ->
     shouldSend now key m = (false, m)).
Proof.
  rewrite shouldSend_unfold. unfold last_or_zero.
  repeat split.
  - intros last -> H. destruct (Z.ltb_spec (now - last) DEBOUNCE_MS); [reflexivity | lia].
  - intros last -> H. destruct (Z.ltb_spec (now - last) DEBOUNCE_MS); [lia | reflexivity].
  - intros -> H. destruct (Z.ltb_spec (now - 0) DEBOUNCE_MS); [lia | reflexivity].
  - intros -> H. destruct (Z.ltb_spec (now - 0) DEBOUNCE_MS); [reflexivity | lia].
Qed.

(** C2: on a clock that reads at least 90 000 ms (every reading of
    [Date.now()] after the first 90 seconds of 1970), for every key and
    every map: within 90 s of the time recorded for the key the call
    returns false and leaves the map as it is; from 90 s on it records the
    current time for the key and returns true; and a key with no entry is
    admitted and recorded, as if its last admission were infinitely long
    ago. *)
Theorem shouldSend_window (now : Z) (key : string) (m : gmap string Z) :
  DEBOUNCE_MS <= now ->
  (forall last, m !! key = Some last -> now - last < DEBOUNCE_MS ->
     shouldSend now key m = (false, m)) /\
  (forall last, m !! key = Some last -> DEBOUNCE_MS <= now - last ->
     shouldSend now key m = (true, <[key := now]> m)) /\
  (m !! key = None -> shouldSend now key m = (true, <[key := now]> m)).
Proof.
  intros Hclock.
  destruct (shouldSend_cases now key m) as (H1 & H2 & H3 & _).
  split; [exact H1 | split; [exact H2 | intros Hn; exact (H3 Hn Hclock)]].
Qed.

(** A key with no entry, checked at 100 s: admitted and recorded. *)
Lemma shouldSend_window_run :
  DEBOUNCE_MS <= 100000 /\
  shouldSend 100000 "send|+15550100|hi" ∅ = (true, <["send|+15550100|hi" := 100000]> ∅).
Proof.
  assert (Hclock : DEBOUNCE_MS <= 100000) by (unfold DEBOUNCE_MS; lia).
  split; [exact Hclock|].
  exact (proj2 (proj2 (shouldSend_window 100000 "send|+15550100|hi" ∅ Hclock))
           (lookup_empty _)).
Defined.

(** ** Notification channel adapter *)

Lemma count_app p (a b : list Event) : count p (a ++ b) = (count p a + count p b)%nat.
Proof. unfold count. rewrite List.filter_app, List.length_app. reflexivity. Qed.

Lemma requireTwilio_run env w :
  exists lines,
    requireTwilio env w =
      (provider_configured env,
       {| lastSendByKey := lastSendByKey w; trace := trace w ++ lines |}) /\
    (provider_configured env = true -> lines = []) /\
    Forall (fun e => exists args, e = console_error args) lines.
Proof.
  unfold requireTwilio, twilioClient, provider_configured, bind, ret, log.
  destruct (ToBoolean (TWILIO_ACCOUNT_SID env)), (ToBoolean (TWILIO_AUTH_TOKEN env));
    simpl; try (eexists [_]; split; [reflexivity | split; [discriminate | repeat constructor; eauto]]).
  destruct (ToBoolean (TWILIO_MSID env)); simpl.
  - exists []. rewrite app_nil_r. destruct w; repeat split; constructor.
  - eexists [_]; split; [reflexivity | split; [discriminate | repeat constructor; eauto]].
Qed.

Lemma count_console p lines :
  (forall args, p (console_error args) = false) ->
  Forall (fun e => exists args, e = console_error args) lines ->
  count p lines = O.
Proof.
  intros Hp. induction 1 as [|e l [args ->] _ IH]; [reflexivity|].
  unfold count in *. simpl. rewrite Hp. exact IH.
Qed.

Ltac trace_norm := rewrite <- ?app_assoc; cbn [app].

Ltac count_lines :=
  rewrite ?count_app, ?count_console by auto; cbn; auto.

Lemma sendImmediateSMS_preconditions env provider to body w :
  precondition_failures env to body w (sendImmediateSMS env provider to body w).
Proof.
  unfold precondition_failures, sendImmediateSMS, bind, ret, log. cbn [fst snd trace lastSendByKey].
  destruct (requireTwilio_run env
              {| lastSendByKey := lastSendByKey w; trace := trace w ++ [adapter_call sendNow to body] |})
    as (lines & -> & _ & Hl).
  cbn [trace lastSendByKey].
  assert (Hc : count is_messages_create ((trace w ++ [adapter_call sendNow to body]) ++ lines)
               = count is_messages_create (trace w)).
  { rewrite !count_app, (count_console _ lines) by (auto). cbn. lia. }
  repeat split; intros; repeat match goal with H : _ = _ :> bool |- _ => rewrite H end;
    cbn; auto.
Qed.

Lemma scheduleSMS_preconditions env provider to body sendAtISO w :
  precondition_failures env to body w (scheduleSMS env provider to body sendAtISO w).
Proof.
  unfold precondition_failures, scheduleSMS, bind, ret, log. cbn [fst snd trace lastSendByKey].
  destruct (requireTwilio_run env
              {| lastSendByKey := lastSendByKey w; trace := trace w ++ [adapter_call sendScheduled to body] |})
    as (lines & -> & _ & Hl).
  cbn [trace lastSendByKey].
  assert (Hc : count is_messages_create ((trace w ++ [adapter_call sendScheduled to body]) ++ lines)
               = count is_messages_create (trace w)).
  { rewrite !count_app, (count_console _ lines) by (auto). cbn. lia. }
  repeat split; intros; repeat match goal with H : _ = _ :> bool |- _ => rewrite H end;
    cbn; auto.
Qed.

(** C8: in [sendImmediateSMS] and in [scheduleSMS] alike, a provider that
    is not configured, a missing recipient and a missing body each end the
    call with a failed result of their own, tested in this order, and no
    [messages.create] request is made; the three error texts differ. *)
Theorem adapter_preconditions (env : Env) (provider : Provider)
    (to body sendAtISO : JSValue) (w : World) :
  precondition_failures env to body w (sendImmediateSMS env provider to body w) /\
  precondition_failures env to body w (scheduleSMS env provider to body sendAtISO w) /\
  "Twilio not configured" <> missing_to /\
  "Twilio not configured" <> missing_body /\
  missing_to <> missing_body.
Proof.
  split; [apply sendImmediateSMS_preconditions|].
  split; [apply scheduleSMS_preconditions|].
  repeat split; discriminate.
Qed.

Lemma sendImmediateSMS_run env provider to body w :
  exists r es,
    sendImmediateSMS env provider to body w =
      (r, {| lastSendByKey := lastSendByKey w;
             trace := trace w ++ adapter_call sendNow to body :: es |}) /\
    adapter_events env to body es.
Proof.
  unfold adapter_events, sendImmediateSMS, bind, ret, log. cbn [trace lastSendByKey].
  destruct (requireTwilio_run env
              {| lastSendByKey := lastSendByKey w;
                 trace := trace w ++ [adapter_call sendNow to body] |})
    as (lines & -> & Hnil & Hl).
  cbn [trace lastSendByKey].
  destruct (provider_configured env); cbn [negb andb].
  2: { eexists _, lines. trace_norm. split; [reflexivity | count_lines]. }
  rewrite Hnil by reflexivity. clear Hnil Hl lines.
  destruct (ToBoolean to); cbn [negb andb].
  2: { eexists _, []. trace_norm. split; [reflexivity | count_lines]. }
  destruct (ToBoolean body); cbn [negb andb].
  2: { eexists _, []. trace_norm. split; [reflexivity | count_lines]. }
  match goal with |- context [provider ?p] => destruct (provider p) end;
    cbn [trace lastSendByKey]; eexists _, [_; _]; trace_norm;
    (split; [reflexivity | count_lines]).
Qed.

Lemma scheduleSMS_run env provider to body sendAtISO w :
  exists r es,
    scheduleSMS env provider to body sendAtISO w =
      (r, {| lastSendByKey := lastSendByKey w;
             trace := trace w ++ adapter_call sendScheduled to body :: es |}) /\
    adapter_events env to body es.
Proof.
  unfold adapter_events, scheduleSMS, bind, ret, log. cbn [trace lastSendByKey].
  destruct (requireTwilio_run env
              {| lastSendByKey := lastSendByKey w;
                 trace := trace w ++ [adapter_call sendScheduled to body] |})
    as (lines & -> & Hnil & Hl).
  cbn [trace lastSendByKey].
  destruct (provider_configured env); cbn [negb andb].
  2: { eexists _, lines. trace_norm. split; [reflexivity | count_lines]. }
  rewrite Hnil by reflexivity. clear Hnil Hl lines.
  destruct (ToBoolean to); cbn [negb andb].
  2: { eexists _, []. trace_norm. split; [reflexivity | count_lines]. }
  destruct (ToBoolean body); cbn [negb andb].
  2: { eexists _, []. trace_norm. split; [reflexivity | count_lines]. }
  match goal with |- context [provider ?p] => destruct (provider p) end;
    cbn [trace lastSendByKey]; eexists _, [_; _]; trace_norm;
    (split; [reflexivity | count_lines]).
Qed.

(** ** Manual handlers *)

Lemma send_sms_suppressed env provider now req w :
  (shouldSend now (send_sms_key env req) (lastSendByKey w)).1 = false ->
  send_sms env provider now req w =
    ({| status := 429; body := BodyError "Debounced duplicate send" |},
     {| lastSendByKey := lastSendByKey w;
        trace := trace w ++ [suppression_check (send_sms_key env req) false] |}).
Proof.
  unfold send_sms, bind, ret, check. rewrite shouldSend_unfold.
  destruct (_ <? _); [reflexivity | discriminate].
Qed.

Lemma send_sms_admitted env provider now req w :
  (shouldSend now (send_sms_key env req) (lastSendByKey w)).1 = true ->
  exists r es,
    send_sms env provider now req w =
      (dispatch_response r,
       {| lastSendByKey := <[send_sms_key env req := now]> (lastSendByKey w);
          trace := trace w ++
                   suppression_check (send_sms_key env req) true ::
                   adapter_call sendNow (send_sms_to env req) (send_sms_body req) :: es |}) /\
    adapter_events env (send_sms_to env req) (send_sms_body req) es.
Proof.
  intros H. apply shouldSend_admitted in H.
  unfold send_sms, bind, ret, check. rewrite H. cbn [negb].
  match goal with |- context [sendImmediateSMS ?e ?p ?t ?b ?w0] =>
    destruct (sendImmediateSMS_run e p t b w0) as (r & es & -> & Hes) end.
  cbn [trace lastSendByKey]. exists r, es. trace_norm.
  split; [destruct r; reflexivity | exact Hes].
Qed.

Lemma schedule_sms_suppressed env provider t0 now req w :
  (shouldSend now (schedule_sms_key env t0 req) (lastSendByKey w)).1 = false ->
  schedule_sms env provider t0 now req w =
    ({| status := 429; body := BodyError "Debounced duplicate schedule" |},
     {| lastSendByKey := lastSendByKey w;
        trace := trace w ++ [suppression_check (schedule_sms_key env t0 req) false] |}).
Proof.
  unfold schedule_sms, bind, ret, check. rewrite shouldSend_unfold.
  destruct (_ <? _); [reflexivity | discriminate].
Qed.

Lemma schedule_sms_admitted env provider t0 now req w :
  (shouldSend now (schedule_sms_key env t0 req) (lastSendByKey w)).1 = true ->
  exists r es,
    schedule_sms env provider t0 now req w =
      (dispatch_response r,
       {| lastSendByKey := <[schedule_sms_key env t0 req := now]> (lastSendByKey w);
          trace := trace w ++
                   suppression_check (schedule_sms_key env t0 req) true ::
                   adapter_call sendScheduled (schedule_sms_to env req) (schedule_sms_body req) :: es |}) /\
    adapter_events env (schedule_sms_to env req) (schedule_sms_body req) es.
Proof.
  intros H. apply shouldSend_admitted in H.
  unfold schedule_sms, bind, ret, check. rewrite H. cbn [negb].
  match goal with |- context [scheduleSMS ?e ?p ?t ?b ?s ?w0] =>
    destruct (scheduleSMS_run e p t b s w0) as (r & es & -> & Hes) end.
  cbn [trace lastSendByKey]. exists r, es. trace_norm.
  split; [destruct r; reflexivity | exact Hes].
Qed.

(** C3: when a manual send is admitted and the same request comes again
    less than 90 s later, the second call is answered 429 "Debounced
    duplicate send", adds nothing but its suppression check to the trace,
    and leaves the map alone, so the two calls together enter
    [sendImmediateSMS] exactly once; that one dispatch makes the single
    [messages.create] request whenever its preconditions hold. *)
Theorem manual_send_twice (env : Env) (prov1 prov2 : Provider) (t1 t2 : Z)
    (req : SendRequest) (w : World) :
  (shouldSend t1 (send_sms_key env req) (lastSendByKey w)).1 = true ->
  t2 - t1 < DEBOUNCE_MS ->
  let first := send_sms env prov1 t1 req w in
  let second := send_sms env prov2 t2 req first.2 in
  (exists r, first.1 = dispatch_response r) /\
  second.1 = {| status := 429; body := BodyError "Debounced duplicate send" |} /\
  trace second.2 = (trace first.2 ++ [suppression_check (send_sms_key env req) false]) /\
  lastSendByKey second.2 = lastSendByKey first.2 /\
  count is_adapter_call (trace second.2) = S (count is_adapter_call (trace w)) /\
  count is_messages_create (trace second.2) =
    (count is_messages_create (trace w) +
     if provider_configured env && ToBoolean (send_sms_to env req)
        && ToBoolean (send_sms_body req) then 1 else 0)%nat.
Proof.
  intros Hadm Hlt first second.
  destruct (send_sms_admitted env prov1 t1 req w Hadm) as (r & es & E1 & Hes).
  subst second first. rewrite E1. cbn [fst snd].
  rewrite send_sms_suppressed
    by (cbn [lastSendByKey]; rewrite shouldSend_after_admission by exact Hlt; reflexivity).
  cbn [fst snd trace lastSendByKey].
  destruct Hes as (Ha & _ & _ & Hm).
  repeat split; eauto.
  - rewrite <- app_assoc. cbn [app].
    change (suppression_check ?k true :: adapter_call ?a ?t ?b :: es ++ ?l)
      with ([suppression_check k true; adapter_call a t b] ++ es ++ l).
    rewrite !count_app, Ha. cbn. lia.
  - rewrite <- app_assoc. cbn [app].
    change (suppression_check ?k true :: adapter_call ?a ?t ?b :: es ++ ?l)
      with ([suppression_check k true; adapter_call a t b] ++ es ++ l).
    rewrite !count_app, Hm. cbn. lia.
Qed.

(** Two manual sends of one request less than 90 s apart never dispatch
    twice, whatever the map held before. *)
Lemma manual_send_at_most_once env prov1 prov2 t1 t2 req w :
  t2 - t1 < DEBOUNCE_MS ->
  let first := send_sms env prov1 t1 req w in
  let second := send_sms env prov2 t2 req first.2 in
  (count is_adapter_call (trace second.2) <= S (count is_adapter_call (trace w)))%nat.
Proof.
  intros Hlt first second. subst second first.
  destruct (shouldSend t1 (send_sms_key env req) (lastSendByKey w)).1 eqn:Hadm.
  - destruct (send_sms_admitted env prov1 t1 req w Hadm) as (r & es & -> & Ha & _).
    cbn [snd]. rewrite send_sms_suppressed
      by (cbn [lastSendByKey]; rewrite shouldSend_after_admission by exact Hlt; reflexivity).
    cbn [snd trace lastSendByKey]. rewrite <- app_assoc. cbn [app].
    change (suppression_check ?k true :: adapter_call ?a ?t ?b :: es ++ ?l)
      with ([suppression_check k true; adapter_call a t b] ++ es ++ l).
    rewrite !count_app, Ha. cbn. lia.
  - rewrite (send_sms_suppressed _ _ _ _ _ Hadm). cbn [snd].
    match goal with |- context [send_sms ?e ?p ?t ?r ?w0] =>
      destruct (shouldSend t (send_sms_key e r) (lastSendByKey w0)).1 eqn:H2;
      [ destruct (send_sms_admitted e p t r w0 H2) as (r' & es & -> & Ha & _)
      | rewrite (send_sms_suppressed e p t r w0 H2) ] end;
      cbn [snd trace]; rewrite <- ?app_assoc; cbn [app].
    + change (suppression_check ?k false :: suppression_check ?k' true :: adapter_call ?a ?t ?b :: es)
        with ([suppression_check k false; suppression_check k' true; adapter_call a t b] ++ es).
      rewrite !count_app, Ha. cbn. lia.
    + rewrite !count_app. cbn. lia.
Qed.

(** The key of a manual send is read off the request and the configured
    default recipient; that of a scheduled send does not depend on the
    clock when the request carries its [sendAt]. *)
Lemma schedule_sms_key_explicit env t0 t0' req :
  ToBoolean (sched_sendAt req) = true ->
  schedule_sms_key env t0 req = schedule_sms_key env t0' req.
Proof.
  intros H. unfold schedule_sms_key, schedule_sms_sendAtISO, or_else.
  rewrite H. reflexivity.
Qed.

(** An admitted manual send records its key before the adapter is entered
    and keeps it whatever the dispatch returns; the same request within
    90 s is then answered 429. *)
Lemma send_sms_record_kept env prov1 prov2 t1 t2 req w :
  (shouldSend t1 (send_sms_key env req) (lastSendByKey w)).1 = true ->
  t2 - t1 < DEBOUNCE_MS ->
  let first := send_sms env prov1 t1 req w in
  lastSendByKey first.2 = <[send_sms_key env req := t1]> (lastSendByKey w) /\
  (exists es, trace first.2 =
     (trace w ++ suppression_check (send_sms_key env req) true ::
      adapter_call sendNow (send_sms_to env req) (send_sms_body req) :: es)) /\
  (send_sms env prov2 t2 req first.2).1 =
    {| status := 429; body := BodyError "Debounced duplicate send" |}.
Proof.
  intros Hadm Hlt first.
  destruct (send_sms_admitted env prov1 t1 req w Hadm) as (r & es & E1 & _).
  subst first. rewrite E1. cbn [fst snd trace lastSendByKey].
  split; [reflexivity|]. split; [eauto|].
  rewrite send_sms_suppressed; [reflexivity|].
  cbn [lastSendByKey]. rewrite shouldSend_after_admission by exact Hlt. reflexivity.
Qed.

(** The same for a scheduled send, as long as the retry derives the key of
    the first call. *)
Lemma schedule_sms_record_kept env prov1 prov2 t0 t1 t0' t2 req w :
  (shouldSend t1 (schedule_sms_key env t0 req) (lastSendByKey w)).1 = true ->
  t2 - t1 < DEBOUNCE_MS ->
  schedule_sms_key env t0' req = schedule_sms_key env t0 req ->
  let first := schedule_sms env prov1 t0 t1 req w in
  lastSendByKey first.2 = <[schedule_sms_key env t0 req := t1]> (lastSendByKey w) /\
  (exists es, trace first.2 =
     (trace w ++ suppression_check (schedule_sms_key env t0 req) true ::
      adapter_call sendScheduled (schedule_sms_to env req) (schedule_sms_body req) :: es)) /\
  (schedule_sms env prov2 t0' t2 req first.2).1 =
    {| status := 429; body := BodyError "Debounced duplicate schedule" |}.
Proof.
  intros Hadm Hlt Hkey first.
  destruct (schedule_sms_admitted env prov1 t0 t1 req w Hadm) as (r & es & E1 & _).
  subst first. rewrite E1. cbn [fst snd trace lastSendByKey].
  split; [reflexivity|]. split; [eauto|].
  rewrite schedule_sms_suppressed; [reflexivity|].
  cbn [lastSendByKey]. rewrite Hkey, shouldSend_after_admission by exact Hlt. reflexivity.
Qed.

(** ** Prediction handler *)

Lemma severe_radius_km_lookup data :
  severe_radius_km data =
    (if nullish (band_radius_5psi data) then JNull else band_radius_5psi data).
Proof.
  unfold severe_radius_km, band_radius_5psi, coalesce.
  destruct (overpressure data) as [bands|]; [|reflexivity].
  destruct (List.find _ bands) as [b|]; reflexivity.
Qed.

Lemma severeRadius_lookup data :
  severeRadius data =
    (if nullish (band_radius_5psi data) then JString "?" else band_radius_5psi data).
Proof.
  unfold severeRadius, band_radius_5psi, coalesce.
  destruct (overpressure data) as [bands|]; [|reflexivity].
  destruct (List.find _ bands) as [b|]; reflexivity.
Qed.

(** C4, as amended: the broadcast summary and the SMS leg look the radius
    of the "5 psi" band up in the same way and agree on it whenever the
    band has one; when it is absent (no list, no such band, or a null
    radius) the summary carries null and the SMS leg the marker "?". *)
Theorem severe_radius_two_defaults (data : Outcome) :
  severe_radius_km data =
    (if nullish (band_radius_5psi data) then JNull else band_radius_5psi data) /\
  severeRadius data =
    (if nullish (band_radius_5psi data) then JString "?" else band_radius_5psi data).
Proof. split; [apply severe_radius_km_lookup | apply severeRadius_lookup]. Qed.

(** An outcome without an overpressure list: the summary gets null, the
    SMS leg "?", and the two differ. *)
Lemma severe_radius_absent_differs :
  let data := {| hazard_level := JString "low"; energy_megatons := JNumber (Fin 2 0);
                 red_alert := JBool true; overpressure := None;
                 mode := JString "airburst"; other_fields := [] |} in
  severe_radius_km data = JNull /\
  severeRadius data = JString "?" /\
  severe_radius_km data <> severeRadius data.
Proof. cbv zeta. repeat split. discriminate. Qed.

Section PredictionProperties.

Variable StringToNumber : string -> JSNum.
Variable toFixed3 : JSNum -> string.

Local Notation predict := (predict StringToNumber toFixed3).
Local Notation alert_body := (alert_body StringToNumber toFixed3).
Local Notation safe_distance := (safe_distance StringToNumber).
Local Notation ToNumber := (ToNumber StringToNumber).

(** A prediction whose upstream call succeeded: the response, the map and
    the trace.  After the forwarded request comes the broadcast, then
    whatever the SMS leg does. *)
Lemma predict_resolved_run env provider data t_when now req w :
  exists m' rest,
    predict env provider (Resolved data) t_when now req w =
      ({| status := 200; body := BodyOutcome data |},
       {| lastSendByKey := m';
          trace := trace w ++
                   axios_post (FASTAPI_URL env ++ "/predict")%string req 15000 ::
                   io_emit "red_alert" (red_alert_event t_when req data) :: rest |}) /\
    count is_io_emit rest = O /\
    (ToBoolean (red_alert data) = false -> rest = [] /\ m' = lastSendByKey w).
Proof.
  unfold predict, bind, ret, log, when_. cbn [trace lastSendByKey].
  destruct (ToBoolean (red_alert data)); cbn [trace lastSendByKey].
  2: { exists (lastSendByKey w), []. trace_norm. repeat split; auto. }
  destruct (ToBoolean (or_else (notify_phone req) (DEFAULT_ALERT_TO env))); cbn [negb].
  2: { cbn [trace lastSendByKey]. eexists (lastSendByKey w), [_]. trace_norm.
       split; [reflexivity|]. split; [reflexivity | discriminate]. }
  unfold check, bind. cbn [trace lastSendByKey].
  destruct (shouldSend now _ (lastSendByKey w)) as [[|] m'] eqn:E; cbn [trace lastSendByKey].
  - match goal with |- context [sendImmediateSMS ?e ?p ?t ?b ?w0] =>
      destruct (sendImmediateSMS_run e p t b w0) as (r & es & -> & Ha & He & _) end.
    cbn [trace lastSendByKey].
    destruct r; cbn [ok negb]; cbn [trace lastSendByKey];
      eexists m', (_ :: _ :: _); trace_norm; (split; [reflexivity|]);
      (split; [|discriminate]).
    + change (?a :: ?b :: es) with ([a; b] ++ es). rewrite count_app, He. reflexivity.
    + change (?a :: ?b :: es ++ ?l) with ([a; b] ++ es ++ l).
      rewrite !count_app, He. reflexivity.
  - eexists m', [_; _]. trace_norm. split; [reflexivity|].
    split; [reflexivity | discriminate].
Qed.

(** The SMS leg of a red alert with a recipient: the key is checked, and
    the adapter is entered with the composed text when it is admitted. *)
Lemma predict_sms_leg env provider data t_when now req w :
  ToBoolean (red_alert data) = true ->
  ToBoolean (or_else (notify_phone req) (DEFAULT_ALERT_TO env)) = true ->
  let to := or_else (notify_phone req) (DEFAULT_ALERT_TO env) in
  let severe := severeRadius data in
  let verdict := shouldSend now (alert_key to req severe) (lastSendByKey w) in
  let after := (predict env provider (Resolved data) t_when now req w).2 in
  lastSendByKey after = verdict.2 /\
  exists es,
    trace after =
      trace w ++ axios_post (FASTAPI_URL env ++ "/predict")%string req 15000 ::
      io_emit "red_alert" (red_alert_event t_when req data) ::
      suppression_check (alert_key to req severe) verdict.1 ::
      (if verdict.1 then adapter_call sendNow to (JString (alert_body req severe)) :: es
       else es) /\
    (verdict.1 = false -> count is_adapter_call es = O).
Proof.
  intros Hred Hto. cbv zeta.
  unfold predict, bind, ret, log, when_. cbn [trace lastSendByKey].
  rewrite Hred, Hto. cbn [negb].
  unfold check, bind. cbn [trace lastSendByKey].
  destruct (shouldSend now _ (lastSendByKey w)) as [[|] m'] eqn:E; cbn [trace lastSendByKey fst snd].
  - match goal with |- context [sendImmediateSMS ?e ?p ?t ?b ?w0] =>
      destruct (sendImmediateSMS_run e p t b w0) as (r & es & -> & _) end.
    cbn [trace lastSendByKey].
    destruct r; cbn [ok negb]; cbn [snd trace lastSendByKey];
      (split; [reflexivity|]); eexists; trace_norm; (split; [reflexivity | discriminate]).
  - split; [reflexivity|]. eexists [_]. trace_norm. split; [reflexivity|]. reflexivity.
Qed.

(** C5: when the upstream call succeeds, the handler publishes one
    "red_alert" event, whatever the red-alert flag says, directly after
    forwarding the request; what else the invocation does comes after it
    and publishes nothing, so the broadcast precedes every suppression
    check of the invocation, and on a red alert with a recipient the check
    is the very next step. *)
Theorem predict_broadcast_first (env : Env) (provider : Provider) (data : Outcome)
    (t_when now : Z) (req : PredictRequest) (w : World) :
  let after := (predict env provider (Resolved data) t_when now req w).2 in
  let to := or_else (notify_phone req) (DEFAULT_ALERT_TO env) in
  exists rest,
    trace after =
      trace w ++ axios_post (FASTAPI_URL env ++ "/predict")%string req 15000 ::
      io_emit "red_alert" (red_alert_event t_when req data) :: rest /\
    count is_io_emit rest = O /\
    count is_io_emit (trace after) = S (count is_io_emit (trace w)) /\
    (forall pre key b post,
       axios_post (FASTAPI_URL env ++ "/predict")%string req 15000 ::
       io_emit "red_alert" (red_alert_event t_when req data) :: rest =
         pre ++ suppression_check key b :: post ->
       count is_io_emit pre = 1%nat) /\
    (ToBoolean (red_alert data) = true -> ToBoolean to = true ->
       exists b rest',
         rest = suppression_check (alert_key to req (severeRadius data)) b :: rest').
Proof.
  destruct (predict_resolved_run env provider data t_when now req w)
    as (m' & rest & E & Hr & _).
  cbv zeta. exists rest.
  split; [rewrite E; reflexivity|]. split; [exact Hr|]. split; [|split].
  - rewrite E. cbn [snd trace].
    change (?a :: ?b :: rest) with ([a; b] ++ rest).
    rewrite !count_app, Hr. cbn. lia.
  - intros pre key b post H.
    destruct pre as [|e1 [|e2 pre]]; cbn [app] in H; try discriminate.
    injection H as <- <- ->.
    change (?a :: ?b :: pre) with ([a; b] ++ pre).
    rewrite count_app in Hr. rewrite count_app. cbn. lia.
  - intros Hred Hto.
    destruct (predict_sms_leg env provider data t_when now req w Hred Hto)
      as (_ & es & Ht & _).
    rewrite E in Ht. cbn [snd trace] in Ht.
    apply app_inv_head in Ht. injection Ht as ->. eauto.
Qed.

(** C6: when the upstream call succeeds, the response is 200 with the
    outcome as the upstream gave it, whatever the recipient, the map, the
    clock, the configuration and the provider are, that is, whether the
    SMS is skipped, suppressed, sent or refused. *)
Theorem predict_returns_outcome (env : Env) (provider : Provider) (data : Outcome)
    (t_when now : Z) (req : PredictRequest) (w : World) :
  (predict env provider (Resolved data) t_when now req w).1 =
    {| status := 200; body := BodyOutcome data |}.
Proof.
  destruct (predict_resolved_run env provider data t_when now req w)
    as (m' & rest & -> & _). reflexivity.
Qed.

(** C9: when the upstream call fails, the handler answers 400 with
    "Prediction failed" and the upstream's response data, or the error's
    message when there is none; it logs the failure, publishes nothing,
    checks and records no key and enters no adapter. *)
Theorem predict_upstream_failure (env : Env) (provider : Provider) (err : AxiosError)
    (t_when now : Z) (req : PredictRequest) (w : World) :
  let run := predict env provider (Rejected err) t_when now req w in
  let details := if json_truthy (response_data err) then response_data err
                 else JScalar (ax_message err) in
  run.1 = {| status := 400; body := BodyFailure "Prediction failed" details |} /\
  lastSendByKey run.2 = lastSendByKey w /\
  trace run.2 = trace w ++
    [axios_post (FASTAPI_URL env ++ "/predict")%string req 15000;
     console_error [LVal (JString "[/api/predict] ERROR:"); LJson details]] /\
  count is_io_emit (trace run.2) = count is_io_emit (trace w) /\
  count is_suppression_check (trace run.2) = count is_suppression_check (trace w) /\
  count is_adapter_call (trace run.2) = count is_adapter_call (trace w) /\
  count is_messages_create (trace run.2) = count is_messages_create (trace w).
Proof.
  cbv zeta. unfold predict, failure_details, bind, ret, log. cbn [fst snd trace lastSendByKey].
  rewrite <- app_assoc. cbn [app].
  repeat split; rewrite count_app; cbn; lia.
Qed.

(** *** The alert text *)

Lemma string_append_assoc (a b c : string) : ((a ++ b) ++ c = a ++ b ++ c)%string.
Proof.
  induction a as [|x a IH]; [reflexivity|].
  change (String x ((a ++ b) ++ c) = String x (a ++ b ++ c))%string.
  f_equal. exact IH.
Qed.

Lemma regroup (a b m n k z t u s : string) :
  ((a ++ b) ++ m ++ n ++ k ++ z ++ t ++ u ++ s =
   a ++ b ++ (m ++ n ++ k) ++ (z ++ t ++ u) ++ s)%string.
Proof. rewrite !string_append_assoc. reflexivity. Qed.

(** [round_half_up m e] is the integer [k] with [k - 1/2 <= m * 10^e < k + 1/2]. *)
Lemma round_half_up_nearest (m e : Z) :
  (0 <= e -> round_half_up m e = m * 10 ^ e) /\
  (e < 0 ->
     (2 * round_half_up m e - 1) * 10 ^ (- e) <= 2 * m
       < (2 * round_half_up m e + 1) * 10 ^ (- e)).
Proof.
  unfold round_half_up. split; intros H.
  - destruct (Z.leb_spec 0 e); [reflexivity | lia].
  - destruct (Z.leb_spec 0 e); [lia|].
    assert (HP : 0 < 10 ^ (- e)) by (apply Z.pow_pos_nonneg; lia).
    set (P := 10 ^ (- e)) in *.
    pose proof (Z.div_mod (2 * m + P) (2 * P) ltac:(lia)) as Hd.
    pose proof (Z.mod_pos_bound (2 * m + P) (2 * P) ltac:(lia)) as Hm.
    set (k := (2 * m + P) / (2 * P)) in *. nia.
Qed.

Lemma safe_distance_finite severe m e :
  ToNumber severe = Fin m e ->
  safe_distance severe = Fin (Z.max 6 (round_half_up m e)) 0.
Proof.
  unfold safe_distance, num_or, num_truthy. intros ->.
  destruct (Z.eqb_spec m 0) as [->|Hm]; cbn [negb].
  - assert (R : round_half_up 0 e = 0).
    { unfold round_half_up. destruct (Z.leb_spec 0 e); [lia|].
      assert (0 < 10 ^ (- e)) by (apply Z.pow_pos_nonneg; lia).
      rewrite Z.mul_0_r, Z.add_0_l. apply Z.div_small. lia. }
    rewrite R. reflexivity.
  - unfold Math_round, Math_max, num_lt.
    rewrite Z.min_id, Z.sub_diag. change (10 ^ 0) with 1. rewrite !Z.mul_1_r.
    destruct (Z.ltb_spec 6 (round_half_up m e)); f_equal; lia.
Qed.

Lemma safe_distance_NaN severe :
  ToNumber severe = NaN -> safe_distance severe = Fin 6 0.
Proof. unfold safe_distance. intros ->. reflexivity. Qed.

(** C7: on a red alert that is dispatched, the text handed to the adapter
    carries, in "Move beyond ...km", the number
    [Math.max(6, Math.round(Number(severeRadius) || 0))] and, in the
    severe-zone part, the severe radius as it prints.  For a finite
    numeric radius the first is the larger of 6 and the radius rounded to
    the nearest integer (ties up); it is 6 when the radius does not
    convert to a number and when the band is absent, where the radius
    prints as "?"; for the radius 12.3 the text has 12 and 12.3. *)
Theorem alert_body_figures (Hq : StringToNumber "?" = NaN)
    (env : Env) (provider : Provider) (t_when now : Z)
    (req : PredictRequest) (data : Outcome) (w : World) :
  let to := or_else (notify_phone req) (DEFAULT_ALERT_TO env) in
  let severe := severeRadius data in
  (ToBoolean (red_alert data) = true -> ToBoolean to = true ->
   (shouldSend now (alert_key to req severe) (lastSendByKey w)).1 = true ->
   In (adapter_call sendNow to (JString (alert_body req severe)))
      (trace (predict env provider (Resolved data) t_when now req w).2)) /\
  (exists pre,
     alert_body req severe =
       (pre ++ "Move beyond " ++ NumberToString (safe_distance severe) ++
        "km from impact point. " ++ body_severe_zone ++ ToString severe ++
        "km. " ++ body_suffix)%string) /\
  (forall m e, ToNumber severe = Fin m e ->
     safe_distance severe = Fin (Z.max 6 (round_half_up m e)) 0 /\
     (0 <= e -> round_half_up m e = m * 10 ^ e) /\
     (e < 0 ->
        (2 * round_half_up m e - 1) * 10 ^ (- e) <= 2 * m
          < (2 * round_half_up m e + 1) * 10 ^ (- e))) /\
  (ToNumber severe = PosInf -> safe_distance severe = PosInf) /\
  (ToNumber severe = NegInf -> safe_distance severe = Fin 6 0) /\
  (ToNumber severe = NaN -> NumberToString (safe_distance severe) = "6") /\
  (nullish (band_radius_5psi data) = true ->
     ToString severe = "?" /\ NumberToString (safe_distance severe) = "6") /\
  (band_radius_5psi data = JNumber (Fin 123 (-1)) ->
     ToString severe = "12.3" /\ NumberToString (safe_distance severe) = "12").
Proof.
  cbv zeta.
  pose proof (severeRadius_lookup data) as Hs.
  split; [|split; [|split; [|split; [|split; [|split; [|split]]]]]].
  - intros Hred Hto Hadm.
    destruct (predict_sms_leg env provider data t_when now req w Hred Hto)
      as (_ & es & -> & _).
    rewrite Hadm. apply in_or_app. right. cbn. auto.
  - eexists. unfold alert_body. symmetry. apply regroup.
  - intros m e H. split; [exact (safe_distance_finite _ m e H)|].
    apply round_half_up_nearest.
  - unfold safe_distance. intros ->. reflexivity.
  - unfold safe_distance. intros ->. reflexivity.
  - intros H. rewrite (safe_distance_NaN _ H). reflexivity.
  - intros H. rewrite Hs, H. split; [reflexivity|].
    rewrite safe_distance_NaN; [reflexivity | exact Hq].
  - intros H. rewrite Hs, H. cbn [nullish]. split; [reflexivity|].
    rewrite (safe_distance_finite _ 123 (-1)); reflexivity.
Qed.

End PredictionProperties.

(** * Runs *)

Example NumberToString_12_3 : NumberToString (Fin 123 (-1)) = "12.3".
Proof. reflexivity. Qed.
Example NumberToString_1200 : NumberToString (Fin 12 2) = "1200".
Proof. reflexivity. Qed.
Example NumberToString_small : NumberToString (Fin (-5) (-4)) = "-0.0005".
Proof. reflexivity. Qed.
Example NumberToString_exp : NumberToString (Fin 15 (-8)) = "1.5e-7".
Proof. reflexivity. Qed.
Example NumberToString_big : NumberToString (Fin 1 21) = "1e+21".
Proof. reflexivity. Qed.
Example toISOString_epoch : toISOString 0 = "1970-01-01T00:00:00.000Z".
Proof. reflexivity. Qed.
Example toISOString_2023 : toISOString 1700000000000 = "2023-11-14T22:13:20.000Z".
Proof. vm_compute. reflexivity. Qed.
Example toISOString_leap : toISOString 951782400123 = "2000-02-29T00:00:00.123Z".
Proof. vm_compute. reflexivity. Qed.
Example Math_round_neg_half : Math_round (Fin (-125) (-1)) = Fin (-12) 0.
Proof. reflexivity. Qed.

Example alert_body_sample :
  alert_body StringToNumber_decimal toFixed3_decimal sample_request
    (severeRadius sample_outcome) =
  (body_intro ++ "17.385,78.487. Move beyond 12km from impact point. " ++
   body_severe_zone ++ "12.3km. " ++ body_suffix)%string.
Proof. vm_compute. reflexivity. Qed.

Example predict_sample_run :
  let run := predict StringToNumber_decimal toFixed3_decimal sample_env accepting
               (Resolved sample_outcome) 1700000000000 1700000000000 sample_request idle in
  run.1 = {| status := 200; body := BodyOutcome sample_outcome |} /\
  List.map (fun e => match e with
                     | axios_post url _ _ => url
                     | io_emit name _ => name
                     | suppression_check key _ => key
                     | adapter_call _ to _ => ToString to
                     | messages_create p => ToString (messagingServiceSid p)
                     | _ => "console"
                     end) (trace run.2) =
    [ "http://localhost:8000/predict"; "red_alert";
      "alert|+15550100|17.385|78.487|12.3"; "+15550100"; "MG0001"; "console" ].
Proof. vm_compute. split; reflexivity. Qed.

(** The sample outcome has the radius 12.3. *)
Lemma alert_body_figures_run :
  ToString (severeRadius sample_outcome) = "12.3" /\
  NumberToString (safe_distance StringToNumber_decimal (severeRadius sample_outcome)) = "12".
Proof.
  destruct (alert_body_figures StringToNumber_decimal toFixed3_decimal eq_refl
              sample_env accepting 1700000000000 1700000000000
              sample_request sample_outcome idle) as (_ & _ & _ & _ & _ & _ & _ & H).
  apply H. reflexivity.
Defined.

(** The sample send, repeated after 30 s. *)
Lemma manual_send_twice_run :
  (send_sms sample_env accepting 1700000030000 sample_send
     (send_sms sample_env accepting 1700000000000 sample_send idle).2).1 =
  {| status := 429; body := BodyError "Debounced duplicate send" |}.
Proof.
  destruct (manual_send_twice sample_env accepting accepting
              1700000000000 1700000030000 sample_send idle) as (_ & H & _).
  - vm_compute. reflexivity.
  - vm_compute. reflexivity.
  - exact H.
Defined.

(** No credentials; and credentials but no recipient. *)
Lemma adapter_preconditions_run :
  (sendImmediateSMS bare_env accepting (JString "+15550100") (JString "Flood warning") idle).1 =
    Failed (JString "Twilio not configured") /\
  (scheduleSMS sample_env accepting JUndefined (JString "Flood warning")
     (JString "2030-01-01T00:00:00.000Z") idle).1 = Failed (JString missing_to).
Proof.
  split.
  - destruct (adapter_preconditions bare_env accepting (JString "+15550100")
                (JString "Flood warning") JUndefined idle) as ((H & _) & _).
    apply H. reflexivity.
  - destruct (adapter_preconditions sample_env accepting JUndefined
                (JString "Flood warning") (JString "2030-01-01T00:00:00.000Z") idle)
      as (_ & (_ & H & _) & _).
    apply H; reflexivity.
Defined.

(** C1: two schedule requests with the same content and no [sendAt], one
    second apart, derive two keys, because the default [sendAt] is taken
    from the clock; neither is suppressed and the provider is asked twice. *)
Theorem schedule_key_follows_clock :
  schedule_sms_key sample_env 1700000000000 sample_schedule =
    "sched|+15550100|Flood warning|2023-11-14T22:14:20.000Z" /\
  schedule_sms_key sample_env 1700000001000 sample_schedule =
    "sched|+15550100|Flood warning|2023-11-14T22:14:21.000Z" /\
  let first :=
    schedule_sms sample_env accepting 1700000000000 1700000000000 sample_schedule idle in
  let second :=
    schedule_sms sample_env accepting 1700000001000 1700000001000 sample_schedule first.2 in
  first.1 = {| status := 200; body := BodyDispatch (Sent (JString "SM0001")) |} /\
  second.1 = {| status := 200; body := BodyDispatch (Sent (JString "SM0001")) |} /\
  count is_messages_create (trace second.2) = 2%nat.
Proof. vm_compute. repeat split. Qed.

(** C10: with no provider configured, a schedule request without [sendAt]
    fails with "Twilio not configured" and leaves its key recorded; the
    same request one second later derives another key and fails the same
    way instead of being answered 429. *)
Theorem schedule_retry_not_suppressed :
  let first :=
    schedule_sms bare_env accepting 1700000000000 1700000000000 sample_schedule idle in
  let second :=
    schedule_sms bare_env accepting 1700000001000 1700000001000 sample_schedule first.2 in
  first.1 = {| status := 400; body := BodyDispatch (Failed (JString "Twilio not configured")) |} /\
  lastSendByKey first.2 !! schedule_sms_key bare_env 1700000000000 sample_schedule
    = Some 1700000000000 /\
  second.1 = {| status := 400; body := BodyDispatch (Failed (JString "Twilio not configured")) |} /\
  second.1 <> {| status := 429; body := BodyError "Debounced duplicate schedule" |}.
Proof. vm_compute. repeat split. discriminate. Qed.

(** * Further properties *)

(** ** Suppression window *)

(** X1: a check reads and writes the entry of its own key only: every
    other key keeps its entry, no entry is ever removed, and on two maps
    that agree on the key the verdict and the entry left for the key are
    the same, whatever else the maps hold. *)
Theorem shouldSend_frame (now : Z) (key : string) (m : gmap string Z) :
  (forall k, k <> key -> (shouldSend now key m).2 !! k = m !! k) /\
  (forall k, is_Some (m !! k) -> is_Some ((shouldSend now key m).2 !! k)) /\
  (forall m' : gmap string Z, m' !! key = m !! key ->
     (shouldSend now key m').1 = (shouldSend now key m).1 /\
     (shouldSend now key m').2 !! key = (shouldSend now key m).2 !! key).
Proof.
  split; [|split].
  - rewrite shouldSend_unfold.
    destruct (_ <? _); cbn [snd]; intros k H; [reflexivity|].
    rewrite lookup_insert_ne by congruence. reflexivity.
  - rewrite shouldSend_unfold.
    destruct (_ <? _); cbn [snd]; intros k H; [exact H|].
    destruct (decide (key = k)) as [->|Hne].
    + rewrite lookup_insert_eq. eauto.
    + rewrite lookup_insert_ne by exact Hne. exact H.
  - intros m' Hm. rewrite !shouldSend_unfold. unfold last_or_zero. rewrite Hm.
    destruct (_ <? _); cbn [fst snd]; split; try reflexivity; [exact Hm|].
    rewrite !lookup_insert_eq. reflexivity.
Qed.

Lemma last_or_zero_insert_eq key t m : last_or_zero key (<[key := t]> m) = t.
Proof. unfold last_or_zero. rewrite lookup_insert_eq. reflexivity. Qed.

Lemma last_or_zero_insert_ne key k t m :
  k <> key -> last_or_zero key (<[k := t]> m) = last_or_zero key m.
Proof. intros H. unfold last_or_zero. rewrite lookup_insert_ne by exact H. reflexivity. Qed.

Lemma admitted_times_spaced key calls :
  forall m,
    Forall (fun a => last_or_zero key m + DEBOUNCE_MS <= a) (admitted_times key calls m) /\
    StronglySorted (fun a b => a + DEBOUNCE_MS <= b) (admitted_times key calls m).
Proof.
  induction calls as [|[now k] rest IH]; intros m; cbn [admitted_times].
  - split; constructor.
  - rewrite shouldSend_unfold.
    destruct (Z.ltb_spec (now - last_or_zero k m) DEBOUNCE_MS) as [Hlt|Hge]; cbn [andb].
    + cbn [app]. apply IH.
    + destruct (String.eqb_spec k key) as [->|Hne]; cbn [app].
      * destruct (IH (<[key := now]> m)) as [HF HS].
        rewrite last_or_zero_insert_eq in HF.
        split.
        -- constructor; [lia|].
           revert HF. apply List.Forall_impl. unfold DEBOUNCE_MS in *. lia.
        -- constructor; assumption.
      * destruct (IH (<[k := now]> m)) as [HF HS].
        rewrite last_or_zero_insert_ne in HF by exact Hne.
        split; assumption.
Qed.

(** X2: in any run of checks, started from any map and with any clock
    readings and other keys in between, two admissions of one key are at
    least 90 s apart, and the first is at least 90 s after the time the
    map held for the key. *)
Theorem admissions_spaced (key : string) (calls : list (Z * string)) (m : gmap string Z) :
  StronglySorted (fun a b => a + DEBOUNCE_MS <= b) (admitted_times key calls m) /\
  Forall (fun a => last_or_zero key m + DEBOUNCE_MS <= a) (admitted_times key calls m).
Proof. destruct (admitted_times_spaced key calls m). split; assumption. Qed.

(** X3: the window is fixed at the admission and suppressed calls do not
    extend it: after an admission at [t1] and a suppressed call at [t2],
    a call at [t3], 90 s or more after [t1], is admitted, however close
    to [t2] it comes. *)
Theorem window_not_extended (t1 t2 t3 : Z) (key : string) (m : gmap string Z) :
  (shouldSend t1 key m).1 = true ->
  t2 - t1 < DEBOUNCE_MS ->
  DEBOUNCE_MS <= t3 - t1 ->
  let m1 := (shouldSend t1 key m).2 in
  let m2 := (shouldSend t2 key m1).2 in
  shouldSend t2 key m1 = (false, m1) /\
  shouldSend t3 key m2 = (true, <[key := t3]> m1).
Proof.
  intros Hadm H2 H3 m1 m2. subst m2 m1.
  rewrite (shouldSend_admitted _ _ _ Hadm). cbn [snd].
  rewrite (shouldSend_after_admission t1 t2 key m H2). cbn [snd].
  split; [reflexivity|].
  rewrite shouldSend_unfold, last_or_zero_insert_eq.
  destruct (Z.ltb_spec (t3 - t1) DEBOUNCE_MS); [lia | reflexivity].
Qed.

(** An admission at 100 s, a retry at 189 s, a third call at 190 s. *)
Lemma window_not_extended_run :
  shouldSend 190000 "k" (shouldSend 189000 "k" (shouldSend 100000 "k" ∅).2).2 =
  (true, <["k" := 190000]> (shouldSend 100000 "k" ∅).2).
Proof.
  refine (proj2 (window_not_extended 100000 189000 190000 "k" ∅ _ _ _)).
  - rewrite shouldSend_unfold. reflexivity.
  - reflexivity.
  - discriminate.
Defined.

Lemma last_cons (l : list Z) : forall a d, List.last (a :: l) d = List.last l a.
Proof.
  induction l as [|b l IH]; intros a d; [reflexivity|].
  change (List.last (a :: b :: l) d) with (List.last (b :: l) d).
  rewrite (IH b d), (IH b a). reflexivity.
Qed.

Lemma replay_last key calls :
  forall m,
    last_or_zero key (replay calls m) =
    List.last (admitted_times key calls m) (last_or_zero key m).
Proof.
  induction calls as [|[now k] rest IH]; intros m; cbn [replay admitted_times]; [reflexivity|].
  rewrite IH, shouldSend_unfold.
  destruct (_ <? _); cbn [snd andb app]; [reflexivity|].
  destruct (String.eqb_spec k key) as [->|Hne]; cbn [app].
  - rewrite last_or_zero_insert_eq, last_cons. reflexivity.
  - rewrite last_or_zero_insert_ne by exact Hne. reflexivity.
Qed.

(** X4: after any run of checks, the time the map holds for a key is that
    of the key's last admission in the run, or what it held before when
    the run admitted none. *)
Theorem stored_time_is_last_admission (key : string) (calls : list (Z * string))
    (m : gmap string Z) :
  last_or_zero key (replay calls m) =
  List.last (admitted_times key calls m) (last_or_zero key m).
Proof. apply replay_last. Qed.

(** ** Twilio helpers *)

Lemma provider_configured_env env :
  provider_configured env =
  env_set (env_TWILIO_ACCOUNT_SID env) && env_set (env_TWILIO_AUTH_TOKEN env) &&
  (env_set (env_TWILIO_MESSAGING_SID env) || env_set (env_TWILIO_MESSAGING_SERVICE_SID env)).
Proof.
  unfold provider_configured, TWILIO_ACCOUNT_SID, TWILIO_AUTH_TOKEN, TWILIO_MSID,
    or_else, env_value, env_set.
  destruct (env_TWILIO_ACCOUNT_SID env) as [[|? ?]|], (env_TWILIO_AUTH_TOKEN env) as [[|? ?]|],
    (env_TWILIO_MESSAGING_SID env) as [[|? ?]|],
    (env_TWILIO_MESSAGING_SERVICE_SID env) as [[|? ?]|]; reflexivity.
Qed.

(** X5: [requireTwilio] answers true exactly when the account SID, the
    auth token and one of the two messaging-service variables are set and
    not empty; it changes no state, and it writes one console line when
    it answers false and none when it answers true. *)
Theorem requireTwilio_reads_env (env : Env) (w : World) :
  let run := requireTwilio env w in
  run.1 =
    env_set (env_TWILIO_ACCOUNT_SID env) && env_set (env_TWILIO_AUTH_TOKEN env) &&
    (env_set (env_TWILIO_MESSAGING_SID env) || env_set (env_TWILIO_MESSAGING_SERVICE_SID env)) /\
  lastSendByKey run.2 = lastSendByKey w /\
  (if run.1 then trace run.2 = trace w
   else exists args, trace run.2 = trace w ++ [console_error args]).
Proof.
  cbv zeta. rewrite <- provider_configured_env.
  unfold requireTwilio, twilioClient, provider_configured, bind, ret, log.
  destruct (ToBoolean (TWILIO_ACCOUNT_SID env)), (ToBoolean (TWILIO_AUTH_TOKEN env));
    cbn [andb fst snd trace lastSendByKey]; eauto.
  destruct (ToBoolean (TWILIO_MSID env)); cbn [negb fst snd trace lastSendByKey]; eauto.
Qed.

Lemma requests_app a b : requests (a ++ b) = requests a ++ requests b.
Proof. unfold requests. apply flat_map_app. Qed.

Lemma requests_console lines :
  Forall (fun e => exists args, e = console_error args) lines -> requests lines = [].
Proof. induction 1 as [|e l [args ->] _ IH]; [reflexivity | exact IH]. Qed.

Ltac requests_norm :=
  rewrite ?requests_app;
  repeat match goal with
         | H : Forall _ ?l |- context [requests ?l] => rewrite (requests_console l H)
         end;
  cbn [requests flat_map app]; rewrite ?app_nil_r.

Lemma sendImmediateSMS_cases env provider to body w :
  let run := sendImmediateSMS env provider to body w in
  let p := immediate_params env to body in
  lastSendByKey run.2 = lastSendByKey w /\
  (run.1, requests (trace run.2)) =
    if negb (provider_configured env) then
      (Failed (JString "Twilio not configured"), requests (trace w))
    else if negb (ToBoolean to) then (Failed (JString missing_to), requests (trace w))
    else if negb (ToBoolean body) then (Failed (JString missing_body), requests (trace w))
    else (dispatch_result (provider p), requests (trace w) ++ [p]).
Proof.
  cbv zeta. unfold sendImmediateSMS, immediate_params, bind, ret, log.
  cbn [trace lastSendByKey].
  destruct (requireTwilio_run env
              {| lastSendByKey := lastSendByKey w;
                 trace := trace w ++ [adapter_call sendNow to body] |})
    as (lines & -> & Hnil & Hl).
  cbn [trace lastSendByKey].
  destruct (provider_configured env); cbn [negb].
  2: { cbn [fst snd trace lastSendByKey]. split; [reflexivity|]. requests_norm. reflexivity. }
  rewrite Hnil by reflexivity. clear Hnil Hl lines.
  destruct (ToBoolean to); cbn [negb].
  2: { cbn [fst snd trace lastSendByKey]. split; [reflexivity|]. requests_norm. reflexivity. }
  destruct (ToBoolean body); cbn [negb].
  2: { cbn [fst snd trace lastSendByKey]. split; [reflexivity|]. requests_norm. reflexivity. }
  match goal with |- context [provider ?p] => destruct (provider p) end;
    cbn [fst snd trace lastSendByKey dispatch_result];
    (split; [reflexivity|]); requests_norm; reflexivity.
Qed.

Lemma scheduleSMS_cases env provider to body sendAtISO w :
  let run := scheduleSMS env provider to body sendAtISO w in
  let p := scheduled_params env to body sendAtISO in
  lastSendByKey run.2 = lastSendByKey w /\
  (run.1, requests (trace run.2)) =
    if negb (provider_configured env) then
      (Failed (JString "Twilio not configured"), requests (trace w))
    else if negb (ToBoolean to) then (Failed (JString missing_to), requests (trace w))
    else if negb (ToBoolean body) then (Failed (JString missing_body), requests (trace w))
    else (dispatch_result (provider p), requests (trace w) ++ [p]).
Proof.
  cbv zeta. unfold scheduleSMS, scheduled_params, bind, ret, log.
  cbn [trace lastSendByKey].
  destruct (requireTwilio_run env
              {| lastSendByKey := lastSendByKey w;
                 trace := trace w ++ [adapter_call sendScheduled to body] |})
    as (lines & -> & Hnil & Hl).
  cbn [trace lastSendByKey].
  destruct (provider_configured env); cbn [negb].
  2: { cbn [fst snd trace lastSendByKey]. split; [reflexivity|]. requests_norm. reflexivity. }
  rewrite Hnil by reflexivity. clear Hnil Hl lines.
  destruct (ToBoolean to); cbn [negb].
  2: { cbn [fst snd trace lastSendByKey]. split; [reflexivity|]. requests_norm. reflexivity. }
  destruct (ToBoolean body); cbn [negb].
  2: { cbn [fst snd trace lastSendByKey]. split; [reflexivity|]. requests_norm. reflexivity. }
  match goal with |- context [provider ?p] => destruct (provider p) end;
    cbn [fst snd trace lastSendByKey dispatch_result];
    (split; [reflexivity|]); requests_norm; reflexivity.
Qed.

(** X6: [sendImmediateSMS] asks the provider at most once, and only when
    the three tests pass: with the recipient, the body and the messaging
    service, and no send time.  A created message gives [ok] with its
    sid; a refusal is not retried and gives the error's message, or
    [String(err)] when it has none.  The map is never touched. *)
Theorem sendImmediateSMS_single_attempt (env : Env) (provider : Provider)
    (to body : JSValue) (w : World) :
  let run := sendImmediateSMS env provider to body w in
  let p := immediate_params env to body in
  lastSendByKey run.2 = lastSendByKey w /\
  (run.1, requests (trace run.2)) =
    if negb (provider_configured env) then
      (Failed (JString "Twilio not configured"), requests (trace w))
    else if negb (ToBoolean to) then (Failed (JString missing_to), requests (trace w))
    else if negb (ToBoolean body) then (Failed (JString missing_body), requests (trace w))
    else (dispatch_result (provider p), requests (trace w) ++ [p]).
Proof. apply sendImmediateSMS_cases. Qed.

(** X7: [scheduleSMS] does the same with the send time added: the
    [sendAt] it is given goes to the provider as it is, unexamined, with
    the schedule type "fixed". *)
Theorem scheduleSMS_single_attempt (env : Env) (provider : Provider)
    (to body sendAtISO : JSValue) (w : World) :
  let run := scheduleSMS env provider to body sendAtISO w in
  let p := scheduled_params env to body sendAtISO in
  sendAt p = Some sendAtISO /\ scheduleType p = Some "fixed"%string /\
  lastSendByKey run.2 = lastSendByKey w /\
  (run.1, requests (trace run.2)) =
    if negb (provider_configured env) then
      (Failed (JString "Twilio not configured"), requests (trace w))
    else if negb (ToBoolean to) then (Failed (JString missing_to), requests (trace w))
    else if negb (ToBoolean body) then (Failed (JString missing_body), requests (trace w))
    else (dispatch_result (provider p), requests (trace w) ++ [p]).
Proof. cbv zeta. split; [reflexivity|]. split; [reflexivity|]. apply scheduleSMS_cases. Qed.

(** ** Manual handlers *)

Lemma send_sms_body_truthy req : ToBoolean (send_sms_body req) = true.
Proof.
  unfold send_sms_body, or_else.
  destruct (ToBoolean (send_body req)) eqn:E; [exact E | reflexivity].
Qed.

Lemma schedule_sms_body_truthy req : ToBoolean (schedule_sms_body req) = true.
Proof.
  unfold schedule_sms_body, or_else.
  destruct (ToBoolean (sched_body req)) eqn:E; [exact E | reflexivity].
Qed.

Lemma dispatch_response_ok r :
  (if negb (ok r) then {| status := 400; body := BodyDispatch r |}
   else {| status := 200; body := BodyDispatch r |}) = dispatch_response r.
Proof. destruct r; reflexivity. Qed.

Lemma send_sms_cases env provider now req w :
  let to := send_sms_to env req in
  let p := immediate_params env to (send_sms_body req) in
  let verdict := shouldSend now (send_sms_key env req) (lastSendByKey w) in
  let run := send_sms env provider now req w in
  lastSendByKey run.2 = verdict.2 /\
  run.1 =
    (if negb verdict.1 then {| status := 429; body := BodyError "Debounced duplicate send" |}
     else dispatch_response
            (if negb (provider_configured env) then Failed (JString "Twilio not configured")
             else if negb (ToBoolean to) then Failed (JString missing_to)
             else dispatch_result (provider p))) /\
  requests (trace run.2) =
    requests (trace w) ++
    (if verdict.1 && provider_configured env && ToBoolean to then [p] else []).
Proof.
  cbv zeta. unfold send_sms, bind, ret, check.
  destruct (shouldSend now (send_sms_key env req) (lastSendByKey w)) as [[|] m'];
    cbn [negb fst snd andb].
  2: { cbn [trace lastSendByKey]. repeat split. requests_norm. reflexivity. }
  match goal with |- context [sendImmediateSMS ?e ?pr ?t ?b ?w0] =>
    pose proof (sendImmediateSMS_cases e pr t b w0) as H;
    destruct (sendImmediateSMS e pr t b w0) as [r w1] end.
  cbv zeta in H. cbn [fst snd trace lastSendByKey] in H. destruct H as [Hm H].
  rewrite send_sms_body_truthy in H. cbn [negb] in H.
  rewrite requests_app in H. cbn [requests flat_map app] in H. rewrite app_nil_r in H.
  cbv beta iota.
  destruct (provider_configured env); cbn [negb andb] in *;
    [destruct (ToBoolean (send_sms_to env req)); cbn [negb] in *|];
    injection H as Hr Hq; subst r;
    try match goal with |- context [provider ?p] => destruct (provider p) end;
    cbn [dispatch_result ok negb fst snd]; rewrite Hq, ?app_nil_r;
    repeat split; exact Hm.
Qed.

(** X8: POST /api/send-sms answers 429 when the check suppresses; else
    400 "Twilio not configured"; else 400 with the missing-recipient text
    when neither the request nor ALERT_PHONE gives one; else what the
    provider decides, 200 with the sid or 400 with its error.  An empty
    body is replaced by the default text, so the body test never fails
    here.  The provider is asked exactly when the first three tests pass,
    and the map is left as the check left it. *)
Theorem send_sms_responses (env : Env) (provider : Provider) (now : Z)
    (req : SendRequest) (w : World) :
  let to := send_sms_to env req in
  let p := immediate_params env to (send_sms_body req) in
  let verdict := shouldSend now (send_sms_key env req) (lastSendByKey w) in
  let run := send_sms env provider now req w in
  ToBoolean (msg_body p) = true /\
  lastSendByKey run.2 = verdict.2 /\
  run.1 =
    (if negb verdict.1 then {| status := 429; body := BodyError "Debounced duplicate send" |}
     else dispatch_response
            (if negb (provider_configured env) then Failed (JString "Twilio not configured")
             else if negb (ToBoolean to) then Failed (JString missing_to)
             else dispatch_result (provider p))) /\
  requests (trace run.2) =
    requests (trace w) ++
    (if verdict.1 && provider_configured env && ToBoolean to then [p] else []).
Proof. cbv zeta. split; [apply send_sms_body_truthy | apply send_sms_cases]. Qed.

Lemma schedule_sms_cases env provider t0 now req w :
  let to := schedule_sms_to env req in
  let p := scheduled_params env to (schedule_sms_body req) (schedule_sms_sendAtISO t0 req) in
  let verdict := shouldSend now (schedule_sms_key env t0 req) (lastSendByKey w) in
  let run := schedule_sms env provider t0 now req w in
  lastSendByKey run.2 = verdict.2 /\
  run.1 =
    (if negb verdict.1 then {| status := 429; body := BodyError "Debounced duplicate schedule" |}
     else dispatch_response
            (if negb (provider_configured env) then Failed (JString "Twilio not configured")
             else if negb (ToBoolean to) then Failed (JString missing_to)
             else dispatch_result (provider p))) /\
  requests (trace run.2) =
    requests (trace w) ++
    (if verdict.1 && provider_configured env && ToBoolean to then [p] else []).
Proof.
  cbv zeta. unfold schedule_sms, bind, ret, check.
  destruct (shouldSend now (schedule_sms_key env t0 req) (lastSendByKey w)) as [[|] m'];
    cbn [negb fst snd andb].
  2: { cbn [trace lastSendByKey]. repeat split. requests_norm. reflexivity. }
  match goal with |- context [scheduleSMS ?e ?pr ?t ?b ?s ?w0] =>
    pose proof (scheduleSMS_cases e pr t b s w0) as H;
    destruct (scheduleSMS e pr t b s w0) as [r w1] end.
  cbv zeta in H. cbn [fst snd trace lastSendByKey] in H. destruct H as [Hm H].
  rewrite schedule_sms_body_truthy in H. cbn [negb] in H.
  rewrite requests_app in H. cbn [requests flat_map app] in H. rewrite app_nil_r in H.
  cbv beta iota.
  destruct (provider_configured env); cbn [negb andb] in *;
    [destruct (ToBoolean (schedule_sms_to env req)); cbn [negb] in *|];
    injection H as Hr Hq; subst r;
    try match goal with |- context [provider ?p] => destruct (provider p) end;
    cbn [dispatch_result ok negb fst snd]; rewrite Hq, ?app_nil_r;
    repeat split; exact Hm.
Qed.

(** X9: POST /api/schedule-sms answers by the same four cases.  The send
    time given to the provider is the request's [sendAt] when it has
    one, unexamined, and otherwise the ISO text of the handler's clock
    reading plus 60 s; here too the body test never fails. *)
Theorem schedule_sms_responses (env : Env) (provider : Provider) (t0 now : Z)
    (req : ScheduleRequest) (w : World) :
  let to := schedule_sms_to env req in
  let p := scheduled_params env to (schedule_sms_body req) (schedule_sms_sendAtISO t0 req) in
  let verdict := shouldSend now (schedule_sms_key env t0 req) (lastSendByKey w) in
  let run := schedule_sms env provider t0 now req w in
  sendAt p = Some (if ToBoolean (sched_sendAt req) then sched_sendAt req
                   else JString (toISOString (t0 + 60000))) /\
  ToBoolean (msg_body p) = true /\
  lastSendByKey run.2 = verdict.2 /\
  run.1 =
    (if negb verdict.1 then {| status := 429; body := BodyError "Debounced duplicate schedule" |}
     else dispatch_response
            (if negb (provider_configured env) then Failed (JString "Twilio not configured")
             else if negb (ToBoolean to) then Failed (JString missing_to)
             else dispatch_result (provider p))) /\
  requests (trace run.2) =
    requests (trace w) ++
    (if verdict.1 && provider_configured env && ToBoolean to then [p] else []).
Proof.
  cbv zeta. split; [reflexivity|].
  split; [apply schedule_sms_body_truthy | apply schedule_sms_cases].
Qed.

(** X10: a manual send that comes 90 s or more after an admitted one of
    the same request is admitted again: it is dispatched, and the key's
    time moves to the second call. *)
Theorem manual_send_after_window (env : Env) (prov1 prov2 : Provider) (t1 t2 : Z)
    (req : SendRequest) (w : World) :
  (shouldSend t1 (send_sms_key env req) (lastSendByKey w)).1 = true ->
  DEBOUNCE_MS <= t2 - t1 ->
  let first := send_sms env prov1 t1 req w in
  let second := send_sms env prov2 t2 req first.2 in
  (exists r, second.1 = dispatch_response r) /\
  lastSendByKey second.2 = <[send_sms_key env req := t2]> (lastSendByKey first.2) /\
  count is_adapter_call (trace second.2) = S (S (count is_adapter_call (trace w))).
Proof.
  intros Hadm Hge first second. subst second first.
  destruct (send_sms_admitted env prov1 t1 req w Hadm) as (r1 & es1 & -> & Ha1 & _).
  cbn [snd].
  assert (H2 : (shouldSend t2 (send_sms_key env req)
                  (<[send_sms_key env req := t1]> (lastSendByKey w))).1 = true).
  { rewrite shouldSend_unfold, last_or_zero_insert_eq.
    destruct (Z.ltb_spec (t2 - t1) DEBOUNCE_MS); [lia | reflexivity]. }
  match goal with |- context [send_sms env prov2 t2 req ?w1] =>
    destruct (send_sms_admitted env prov2 t2 req w1 H2) as (r2 & es2 & -> & Ha2 & _) end.
  cbn [fst snd trace lastSendByKey].
  split; [eauto|]. split; [reflexivity|].
  rewrite <- !app_assoc. cbn [app].
  change (trace w ++ ?a :: ?b :: es1 ++ ?c :: ?d :: es2)
    with (trace w ++ [a; b] ++ es1 ++ [c; d] ++ es2).
  rewrite !count_app, Ha1, Ha2. cbn. lia.
Qed.

(** The sample send, repeated after 90 s. *)
Lemma manual_send_after_window_run :
  exists r,
    (send_sms sample_env accepting 1700000090000 sample_send
       (send_sms sample_env accepting 1700000000000 sample_send idle).2).1 =
    dispatch_response r.
Proof.
  refine (proj1 (manual_send_after_window sample_env accepting accepting
                   1700000000000 1700000090000 sample_send idle _ _)).
  - vm_compute. reflexivity.
  - vm_compute. discriminate.
Defined.

Lemma string_append_inj (a x y : string) : (a ++ x = a ++ y)%string -> x = y.
Proof.
  induction a as [|c a IH]; intros H; [exact H|].
  change (String c (a ++ x) = String c (a ++ y))%string in H.
  injection H as H. exact (IH H).
Qed.

Lemma last_or_zero_other now key k m :
  k <> key -> last_or_zero k (shouldSend now key m).2 = last_or_zero k m.
Proof.
  intros H. rewrite shouldSend_unfold. destruct (_ <? _); cbn [snd]; [reflexivity|].
  apply last_or_zero_insert_ne. congruence.
Qed.

Lemma shouldSend_verdict now key m :
  (shouldSend now key m).1 = negb (now - last_or_zero key m <? DEBOUNCE_MS).
Proof. rewrite shouldSend_unfold. destruct (_ <? _); reflexivity. Qed.

(** X11: the key of a manual send includes the body: a send to the same
    recipient with another body text gets, after the first send, the
    verdict it would have got before it, so when it was free to go it
    still is. *)
Theorem other_body_not_suppressed (env : Env) (prov1 prov2 : Provider) (t1 t2 : Z)
    (req req' : SendRequest) (w : World) :
  send_to req' = send_to req ->
  ToString (send_sms_body req') <> ToString (send_sms_body req) ->
  let first := send_sms env prov1 t1 req w in
  send_sms_key env req' <> send_sms_key env req /\
  (shouldSend t2 (send_sms_key env req') (lastSendByKey first.2)).1 =
  (shouldSend t2 (send_sms_key env req') (lastSendByKey w)).1 /\
  ((shouldSend t2 (send_sms_key env req') (lastSendByKey w)).1 = true ->
   exists r, (send_sms env prov2 t2 req' first.2).1 = dispatch_response r).
Proof.
  intros Hto Hbody first.
  assert (Hk : send_sms_key env req' <> send_sms_key env req).
  { unfold send_sms_key, send_sms_to. rewrite Hto. intros E.
    apply string_append_inj, string_append_inj, string_append_inj in E. auto. }
  assert (Hv : (shouldSend t2 (send_sms_key env req') (lastSendByKey first.2)).1 =
               (shouldSend t2 (send_sms_key env req') (lastSendByKey w)).1).
  { subst first.
    destruct (send_sms_cases env prov1 t1 req w) as (-> & _).
    rewrite !shouldSend_verdict, last_or_zero_other by exact Hk. reflexivity. }
  split; [exact Hk|]. split; [exact Hv|].
  intros Hadm. rewrite <- Hv in Hadm.
  destruct (send_sms_admitted env prov2 t2 req' first.2 Hadm) as (r & es & -> & _). eauto.
Qed.

(** Two texts to the default recipient, 1 s apart. *)
Lemma other_body_not_suppressed_run :
  exists r,
    (send_sms sample_env accepting 1700000001000
       {| send_to := JUndefined; send_body := JString "All clear" |}
       (send_sms sample_env accepting 1700000000000 sample_send idle).2).1 =
    dispatch_response r.
Proof.
  refine (proj2 (proj2 (other_body_not_suppressed sample_env accepting accepting
                   1700000000000 1700000001000 sample_send
                   {| send_to := JUndefined; send_body := JString "All clear" |} idle _ _)) _).
  - reflexivity.
  - vm_compute. discriminate.
  - vm_compute. reflexivity.
Defined.

Lemma JString_truthy s : s <> EmptyString -> ToBoolean (JString s) = true.
Proof. intros H. cbn. destruct (String.eqb_spec s EmptyString); [contradiction | reflexivity]. Qed.

Lemma append_nonempty (a b : string) : b <> EmptyString -> (a ++ b)%string <> EmptyString.
Proof. destruct a; [auto | discriminate]. Qed.

(** X12: the key joins recipient and body with "|" and does not escape
    it, so a "|" can move from one to the other without changing the
    key: a send to [r|a] with body [b] and a send to [r] with body [a|b]
    share their key, and the second is answered 429 inside the window of
    the first. *)
Theorem send_key_collision (env : Env) (prov1 prov2 : Provider) (t1 t2 : Z)
    (r a b : string) (w : World) :
  r <> EmptyString -> b <> EmptyString ->
  let req1 := {| send_to := JString (r ++ "|" ++ a); send_body := JString b |} in
  let req2 := {| send_to := JString r; send_body := JString (a ++ "|" ++ b) |} in
  send_sms_key env req1 = send_sms_key env req2 /\
  ((shouldSend t1 (send_sms_key env req1) (lastSendByKey w)).1 = true ->
   t2 - t1 < DEBOUNCE_MS ->
   (send_sms env prov2 t2 req2 (send_sms env prov1 t1 req1 w).2).1 =
     {| status := 429; body := BodyError "Debounced duplicate send" |}).
Proof.
  intros Hr Hb req1 req2.
  assert (Hk : send_sms_key env req1 = send_sms_key env req2).
  { unfold send_sms_key, send_sms_to, send_sms_body, or_else. subst req1 req2.
    cbn [send_to send_body].
    rewrite (JString_truthy (r ++ "|" ++ a)), (JString_truthy b), (JString_truthy r),
      (JString_truthy (a ++ "|" ++ b)); auto using append_nonempty;
      try (apply append_nonempty; discriminate).
    cbn [ToString]. rewrite !string_append_assoc. reflexivity. }
  split; [exact Hk|].
  intros Hadm Hlt.
  destruct (send_sms_admitted env prov1 t1 req1 w Hadm) as (r1 & es & -> & _).
  cbn [snd]. rewrite send_sms_suppressed; [reflexivity|].
  cbn [lastSendByKey]. rewrite <- Hk, shouldSend_after_admission by exact Hlt. reflexivity.
Qed.

(** A send to "+15550100|A" with body "B", then one to "+15550100" with
    body "A|B". *)
Lemma send_key_collision_run :
  (send_sms sample_env accepting 1700000001000
     {| send_to := JString "+15550100"; send_body := JString "A|B" |}
     (send_sms sample_env accepting 1700000000000
        {| send_to := JString "+15550100|A"; send_body := JString "B" |} idle).2).1 =
  {| status := 429; body := BodyError "Debounced duplicate send" |}.
Proof.
  refine (proj2 (send_key_collision sample_env accepting accepting
                   1700000000000 1700000001000 "+15550100" "A" "B" idle _ _) _ _).
  - discriminate.
  - discriminate.
  - vm_compute. reflexivity.
  - reflexivity.
Defined.

(** X13: a scheduled send that carries its [sendAt] is de-duplicated like
    a manual send: when it is admitted and the same request comes again
    less than 90 s later, whatever the clock reads, the second call is
    answered 429 and the two calls enter [scheduleSMS] once. *)
Theorem schedule_twice_explicit (env : Env) (prov1 prov2 : Provider)
    (t0 t1 t0' t2 : Z) (req : ScheduleRequest) (w : World) :
  ToBoolean (sched_sendAt req) = true ->
  (shouldSend t1 (schedule_sms_key env t0 req) (lastSendByKey w)).1 = true ->
  t2 - t1 < DEBOUNCE_MS ->
  let first := schedule_sms env prov1 t0 t1 req w in
  let second := schedule_sms env prov2 t0' t2 req first.2 in
  second.1 = {| status := 429; body := BodyError "Debounced duplicate schedule" |} /\
  lastSendByKey second.2 = lastSendByKey first.2 /\
  count is_adapter_call (trace second.2) = S (count is_adapter_call (trace w)).
Proof.
  intros Hat Hadm Hlt first second. subst second first.
  pose proof (schedule_sms_key_explicit env t0' t0 req Hat) as Hk.
  destruct (schedule_sms_admitted env prov1 t0 t1 req w Hadm) as (r & es & -> & Ha & _).
  cbn [snd]. rewrite schedule_sms_suppressed
    by (cbn [lastSendByKey]; rewrite Hk, shouldSend_after_admission by exact Hlt; reflexivity).
  cbn [fst snd trace lastSendByKey]. repeat split.
  rewrite <- app_assoc. cbn [app].
  change (trace w ++ ?x :: ?y :: es ++ ?l) with (trace w ++ [x; y] ++ es ++ l).
  rewrite !count_app, Ha. cbn. lia.
Qed.

(** The sample schedule with a send time, repeated after 30 s. *)
Lemma schedule_twice_explicit_run :
  let req := {| sched_to := JString "+15550100"; sched_body := JString "Flood warning";
                sched_sendAt := JString "2030-01-01T00:00:00.000Z" |} in
  (schedule_sms sample_env accepting 1700000030000 1700000030000 req
     (schedule_sms sample_env accepting 1700000000000 1700000000000 req idle).2).1 =
  {| status := 429; body := BodyError "Debounced duplicate schedule" |}.
Proof.
  refine (proj1 (schedule_twice_explicit sample_env accepting accepting
                   1700000000000 1700000000000 1700000030000 1700000030000
                   {| sched_to := JString "+15550100"; sched_body := JString "Flood warning";
                      sched_sendAt := JString "2030-01-01T00:00:00.000Z" |} idle _ _ _)).
  - reflexivity.
  - vm_compute. reflexivity.
  - reflexivity.
Defined.

(** ** Prediction handler *)

Section PredictionFurther.

Variable StringToNumber : string -> JSNum.
Variable toFixed3 : JSNum -> string.

Local Notation predict := (predict StringToNumber toFixed3).
Local Notation alert_body := (alert_body StringToNumber toFixed3).

Lemma alert_body_truthy req severe : ToBoolean (JString (alert_body req severe)) = true.
Proof.
  apply JString_truthy. unfold alert_body, body_intro. discriminate.
Qed.

Lemma predict_returns_outcome_aux env provider data t_when now req w :
  (predict env provider (Resolved data) t_when now req w).1 =
    {| status := 200; body := BodyOutcome data |}.
Proof.
  destruct (predict_resolved_run StringToNumber toFixed3 env provider data t_when now req w)
    as (m' & rest & -> & _). reflexivity.
Qed.

Lemma predict_cases env provider data t_when now req w :
  let red := ToBoolean (red_alert data) in
  let to := or_else (notify_phone req) (DEFAULT_ALERT_TO env) in
  let severe := severeRadius data in
  let verdict := shouldSend now (alert_key to req severe) (lastSendByKey w) in
  let p := immediate_params env to (JString (alert_body req severe)) in
  let run := predict env provider (Resolved data) t_when now req w in
  lastSendByKey run.2 = (if red && ToBoolean to then verdict.2 else lastSendByKey w) /\
  requests (trace run.2) =
    requests (trace w) ++
    (if red && ToBoolean to && verdict.1 && provider_configured env then [p] else []) /\
  count is_suppression_check (trace run.2) =
    (count is_suppression_check (trace w) + if red && ToBoolean to then 1 else 0)%nat /\
  count is_adapter_call (trace run.2) =
    (count is_adapter_call (trace w) + if red && ToBoolean to && verdict.1 then 1 else 0)%nat.
Proof.
  cbv zeta. unfold predict, when_, bind, ret, log. cbn [trace lastSendByKey].
  destruct (ToBoolean (red_alert data)); cbn [andb trace lastSendByKey fst snd].
  2: { repeat split; rewrite ?requests_app, ?count_app; cbn; rewrite ?app_nil_r; lia || reflexivity. }
  destruct (ToBoolean (or_else (notify_phone req) (DEFAULT_ALERT_TO env))) eqn:Hto;
    cbn [negb andb].
  2: { cbn [fst snd trace lastSendByKey].
       repeat split; rewrite ?requests_app, ?count_app; cbn; rewrite ?app_nil_r; lia || reflexivity. }
  unfold check, bind. cbn [trace lastSendByKey].
  destruct (shouldSend now _ (lastSendByKey w)) as [[|] m'];
    cbn [andb fst snd trace lastSendByKey].
  2: { repeat split; rewrite ?requests_app, ?count_app; cbn; rewrite ?app_nil_r; lia || reflexivity. }
  match goal with |- context [sendImmediateSMS ?e ?pr ?t ?b ?w0] =>
    pose proof (sendImmediateSMS_cases e pr t b w0) as H;
    destruct (sendImmediateSMS_run e pr t b w0) as (r & es & E & Ha & _ & Hc & _) end.
  cbv zeta in H. rewrite E in H |- *. cbn [fst snd trace lastSendByKey] in H.
  destruct H as [_ H]. rewrite alert_body_truthy in H.
  assert (Hq : requests es =
               if provider_configured env
               then [immediate_params env (or_else (notify_phone req) (DEFAULT_ALERT_TO env))
                       (JString (alert_body req (severeRadius data)))]
               else []).
  { change (adapter_call ?x ?y ?z :: es) with ([adapter_call x y z] ++ es) in H.
    rewrite !requests_app in H. cbn [requests flat_map app] in H. rewrite !app_nil_r in H.
    rewrite Hto in H. cbn [negb] in H.
    destruct (provider_configured env); cbn [negb] in H; injection H as _ H.
    - apply app_inv_head in H. exact H.
    - rewrite <- (app_nil_r (requests (trace w))) in H at 2.
      apply app_inv_head in H. exact H. }
  destruct r; cbn [ok negb]; cbn [fst snd trace lastSendByKey];
    (split; [reflexivity|]); rewrite <- ?app_assoc; cbn [app];
    match goal with |- context [trace w ++ ?a :: ?b :: ?c :: ?d :: ?tl] =>
      change (trace w ++ a :: b :: c :: d :: tl) with (trace w ++ [a; b; c; d] ++ tl) end;
    rewrite ?requests_app, ?count_app, ?Hq, ?Ha, ?Hc; cbn [requests flat_map app];
    (split; [destruct (provider_configured env); rewrite ?app_nil_r; reflexivity|]);
    cbn; split; lia.
Qed.

(** X14: a prediction that is no red alert only forwards the request and
    publishes the event: no suppression check, no adapter call, no
    provider request, the map as it was, and 200 with the outcome. *)
Theorem predict_without_red_alert (env : Env) (provider : Provider) (data : Outcome)
    (t_when now : Z) (req : PredictRequest) (w : World) :
  ToBoolean (red_alert data) = false ->
  predict env provider (Resolved data) t_when now req w =
    ({| status := 200; body := BodyOutcome data |},
     {| lastSendByKey := lastSendByKey w;
        trace := trace w ++
          [axios_post (FASTAPI_URL env ++ "/predict")%string req 15000;
           io_emit "red_alert" (red_alert_event t_when req data)] |}).
Proof.
  intros H.
  destruct (predict_resolved_run StringToNumber toFixed3 env provider data t_when now req w)
    as (m' & rest & -> & _ & Hr). destruct (Hr H) as [-> ->]. reflexivity.
Qed.

(** X15: on a red alert the recipient is the request's [notify_phone]
    when it has one and the configured ALERT_PHONE otherwise; when there
    is neither, the handler writes one console line and stops there: no
    key is checked or recorded, no adapter is entered, and the answer is
    still 200 with the outcome. *)
Theorem predict_recipient (env : Env) (provider : Provider) (data : Outcome)
    (t_when now : Z) (req : PredictRequest) (w : World) :
  ToBoolean (red_alert data) = true ->
  let run := predict env provider (Resolved data) t_when now req w in
  let to := if ToBoolean (notify_phone req) then notify_phone req
            else env_value (env_ALERT_PHONE env) in
  let severe := severeRadius data in
  run.1 = {| status := 200; body := BodyOutcome data |} /\
  (ToBoolean to = true ->
     exists b rest,
       trace run.2 =
         trace w ++ axios_post (FASTAPI_URL env ++ "/predict")%string req 15000 ::
         io_emit "red_alert" (red_alert_event t_when req data) ::
         suppression_check (alert_key to req severe) b ::
         (if b then adapter_call sendNow to (JString (alert_body req severe)) :: rest
          else rest)) /\
  (ToBoolean to = false ->
     lastSendByKey run.2 = lastSendByKey w /\
     exists args,
       trace run.2 =
         trace w ++ [axios_post (FASTAPI_URL env ++ "/predict")%string req 15000;
                     io_emit "red_alert" (red_alert_event t_when req data);
                     console_error args]).
Proof.
  intros Hred. cbv zeta.
  change (if ToBoolean (notify_phone req) then notify_phone req
          else env_value (env_ALERT_PHONE env))
    with (or_else (notify_phone req) (DEFAULT_ALERT_TO env)).
  split; [|split].
  - destruct (predict_resolved_run StringToNumber toFixed3 env provider data t_when now req w)
      as (m' & rest & -> & _). reflexivity.
  - intros Hto.
    destruct (predict_sms_leg StringToNumber toFixed3 env provider data t_when now req w
                Hred Hto) as (_ & es & -> & _). eauto.
  - intros Hto. unfold predict, when_, bind, ret, log. cbn [trace lastSendByKey].
    rewrite Hred, Hto. cbn [negb fst snd trace lastSendByKey].
    split; [reflexivity|]. eexists. rewrite <- !app_assoc. reflexivity.
Qed.

(** X16: the SMS of a prediction: the provider is asked exactly when the
    outcome is a red alert, there is a recipient, the key is admitted and
    the provider is configured, and then once, with the recipient and the
    alert text; the key is checked and recorded only on a red alert with
    a recipient. *)
Theorem predict_sms_request (env : Env) (provider : Provider) (data : Outcome)
    (t_when now : Z) (req : PredictRequest) (w : World) :
  let red := ToBoolean (red_alert data) in
  let to := or_else (notify_phone req) (DEFAULT_ALERT_TO env) in
  let severe := severeRadius data in
  let verdict := shouldSend now (alert_key to req severe) (lastSendByKey w) in
  let p := immediate_params env to (JString (alert_body req severe)) in
  let run := predict env provider (Resolved data) t_when now req w in
  lastSendByKey run.2 = (if red && ToBoolean to then verdict.2 else lastSendByKey w) /\
  requests (trace run.2) =
    requests (trace w) ++
    (if red && ToBoolean to && verdict.1 && provider_configured env then [p] else []) /\
  count is_suppression_check (trace run.2) =
    (count is_suppression_check (trace w) + if red && ToBoolean to then 1 else 0)%nat /\
  count is_adapter_call (trace run.2) =
    (count is_adapter_call (trace w) + if red && ToBoolean to && verdict.1 then 1 else 0)%nat.
Proof. apply predict_cases. Qed.

(** X17: a second red alert for the same request and the same severe
    radius, less than 90 s after one whose SMS was admitted, is still
    published and answered with its own outcome, but sends no SMS, also
    when its hazard level, energy or mode differ: two broadcasts, one
    adapter call, no further provider request. *)
Theorem predict_duplicate_alert (env : Env) (prov1 prov2 : Provider)
    (data1 data2 : Outcome) (w1 w2 t1 t2 : Z) (req : PredictRequest) (w : World) :
  let to := or_else (notify_phone req) (DEFAULT_ALERT_TO env) in
  ToBoolean (red_alert data1) = true -> ToBoolean (red_alert data2) = true ->
  ToBoolean to = true ->
  severeRadius data2 = severeRadius data1 ->
  (shouldSend t1 (alert_key to req (severeRadius data1)) (lastSendByKey w)).1 = true ->
  t2 - t1 < DEBOUNCE_MS ->
  let first := predict env prov1 (Resolved data1) w1 t1 req w in
  let second := predict env prov2 (Resolved data2) w2 t2 req first.2 in
  second.1 = {| status := 200; body := BodyOutcome data2 |} /\
  count is_io_emit (trace second.2) = S (S (count is_io_emit (trace w))) /\
  count is_adapter_call (trace second.2) = S (count is_adapter_call (trace w)) /\
  requests (trace second.2) = requests (trace first.2) /\
  lastSendByKey second.2 = lastSendByKey first.2.
Proof.
  intros to Hr1 Hr2 Hto Hsev Hadm Hlt first second. subst to second first.
  pose proof (predict_cases env prov1 data1 w1 t1 req w) as H1.
  cbv zeta in H1. rewrite Hr1, Hto, Hadm in H1. cbn [andb] in H1.
  destruct H1 as (Hm1 & _ & _ & Ha1).
  rewrite (shouldSend_admitted _ _ _ Hadm) in Hm1. cbn [snd] in Hm1.
  set (s1 := (predict env prov1 (Resolved data1) w1 t1 req w).2) in *.
  pose proof (predict_cases env prov2 data2 w2 t2 req s1) as H2.
  cbv zeta in H2. rewrite Hr2, Hto, Hsev, Hm1 in H2. cbn [andb] in H2.
  rewrite shouldSend_after_admission in H2 by exact Hlt. cbn [fst snd andb] in H2.
  destruct H2 as (Hm2 & Hq2 & _ & Ha2).
  split; [apply predict_returns_outcome_aux|].
  split.
  - destruct (predict_resolved_run StringToNumber toFixed3 env prov2 data2 w2 t2 req s1)
      as (m2 & rest2 & E2 & He2 & _).
    destruct (predict_resolved_run StringToNumber toFixed3 env prov1 data1 w1 t1 req w)
      as (m1 & rest1 & E1 & He1 & _).
    rewrite E2. cbn [snd trace]. subst s1. rewrite E1. cbn [snd trace].
    rewrite <- app_assoc. cbn [app].
    change (trace w ++ ?a :: ?b :: rest1 ++ ?c :: ?d :: rest2)
      with (trace w ++ [a; b] ++ rest1 ++ [c; d] ++ rest2).
    rewrite !count_app, He1, He2. cbn. lia.
  - split; [rewrite Ha2, Ha1; lia|].
    split; [rewrite Hq2, app_nil_r; reflexivity|].
    rewrite Hm2, Hm1. reflexivity.
Qed.

End PredictionFurther.

(** Runs of the three prediction properties on the samples. *)

Lemma predict_without_red_alert_run :
  (predict StringToNumber_decimal toFixed3_decimal sample_env accepting (Resolved calm_outcome)
     1700000000000 1700000000000 sample_request idle).1 =
  {| status := 200; body := BodyOutcome calm_outcome |}.
Proof.
  rewrite (predict_without_red_alert StringToNumber_decimal toFixed3_decimal sample_env
             accepting calm_outcome 1700000000000 1700000000000 sample_request idle eq_refl).
  reflexivity.
Defined.

Lemma predict_recipient_run :
  (predict StringToNumber_decimal toFixed3_decimal bare_env accepting (Resolved sample_outcome)
     1700000000000 1700000000000 sample_request idle).1 =
  {| status := 200; body := BodyOutcome sample_outcome |}.
Proof.
  exact (proj1 (predict_recipient StringToNumber_decimal toFixed3_decimal bare_env accepting
                  sample_outcome 1700000000000 1700000000000 sample_request idle eq_refl)).
Defined.

Lemma predict_duplicate_alert_run :
  let first := predict StringToNumber_decimal toFixed3_decimal sample_env accepting
                 (Resolved sample_outcome) 1700000000000 1700000000000 sample_request idle in
  let second := predict StringToNumber_decimal toFixed3_decimal sample_env accepting
                 (Resolved sample_outcome) 1700000020000 1700000020000 sample_request first.2 in
  requests (trace second.2) = requests (trace first.2).
Proof.
  cbv zeta.
  refine (proj1 (proj2 (proj2 (proj2
    (predict_duplicate_alert StringToNumber_decimal toFixed3_decimal sample_env
       accepting accepting sample_outcome sample_outcome
       1700000000000 1700000020000 1700000000000 1700000020000 sample_request idle
       _ _ _ _ _ _))))); reflexivity.
Defined.

(** ** Configuration *)

Lemma string_length_append (a b : string) :
  String.length (a ++ b) = (String.length a + String.length b)%nat.
Proof.
  induction a as [|c a IH]; [reflexivity|].
  change (S (String.length (a ++ b)) = S (String.length a + String.length b)).
  f_equal. exact IH.
Qed.

Lemma string_append_cancel_r (a b c : string) : (a ++ c = b ++ c)%string -> a = b.
Proof.
  revert b. induction a as [|x a IH]; intros [|y b] H.
  - reflexivity.
  - apply (f_equal String.length) in H. rewrite !string_length_append in H.
    simpl in H. lia.
  - apply (f_equal String.length) in H. rewrite !string_length_append in H.
    simpl in H. lia.
  - change (String x (a ++ c) = String y (b ++ c))%string in H.
    injection H as -> H. f_equal. exact (IH b H).
Qed.

Lemma strip_no_trailing_slash s : forall p, strip_trailing_slashes s <> (p ++ "/")%string.
Proof.
  induction s as [|c r IH]; intros p H; cbn [strip_trailing_slashes] in H.
  - destruct p; discriminate.
  - destruct (strip_trailing_slashes r) as [|d r'] eqn:E.
    + destruct (Ascii.eqb_spec c "/") as [->|Hc].
      * destruct p; discriminate.
      * destruct p as [|x [|y p]]; try discriminate. injection H as ->. contradiction.
    + destruct p as [|x p].
      * discriminate.
      * change (String c (String d r') = String x (p ++ "/"))%string in H.
        injection H as _ H. exact (IH p H).
Qed.

Lemma strip_slashes_back s : exists k, s = (strip_trailing_slashes s ++ slashes k)%string.
Proof.
  induction s as [|c r [k IH]]; cbn [strip_trailing_slashes].
  - exists O. reflexivity.
  - destruct (strip_trailing_slashes r) as [|d r'] eqn:E.
    + destruct (Ascii.eqb_spec c "/") as [->|Hc].
      * exists (S k).
        change (String "/" r = String "/" (EmptyString ++ slashes k))%string.
        f_equal. exact IH.
      * exists k. change (String c r = String c (EmptyString ++ slashes k))%string.
        f_equal. exact IH.
    + exists k. change (String c r = String c (String d r' ++ slashes k))%string.
      f_equal. exact IH.
Qed.

(** X18: [FASTAPI_URL] is the configured URL, or the default when the
    variable is unset or empty, with all its trailing slashes removed and
    nothing else changed; it never ends in a slash, so the address a
    prediction is forwarded to has exactly one slash before "predict". *)
Theorem FASTAPI_URL_trailing_slashes (env : Env) :
  let raw := if env_set (env_FASTAPI_URL env)
             then default EmptyString (env_FASTAPI_URL env)
             else "https://backend-service-w8d7.onrender.com"%string in
  (exists k, raw = (FASTAPI_URL env ++ slashes k)%string) /\
  (forall p, FASTAPI_URL env <> (p ++ "/")%string) /\
  (forall p, (FASTAPI_URL env ++ "/predict")%string <> (p ++ "//predict")%string).
Proof.
  cbv zeta.
  assert (E : FASTAPI_URL env =
              strip_trailing_slashes
                (if env_set (env_FASTAPI_URL env)
                 then default EmptyString (env_FASTAPI_URL env)
                 else "https://backend-service-w8d7.onrender.com"%string)).
  { unfold FASTAPI_URL, or_else, env_value, env_set.
    destruct (env_FASTAPI_URL env) as [[|c s]|]; reflexivity. }
  rewrite E. split; [apply strip_slashes_back|].
  split; [apply strip_no_trailing_slash|].
  intros p H.
  replace (p ++ "//predict")%string with ((p ++ "/") ++ "/predict")%string in H
    by (rewrite string_append_assoc; reflexivity).
  apply string_append_cancel_r in H. exact (strip_no_trailing_slash _ p H).
Qed.

(** ** The two revisions of the adapter *)

Lemma silent_app a b : silent (a ++ b) = silent a ++ silent b.
Proof. unfold silent. apply List.filter_app. Qed.

Ltac revisions_agree :=
  solve [ repeat split; rewrite ?silent_app; cbn [silent List.filter app];
          rewrite ?app_nil_r; reflexivity ].

(** X19: the earlier revision of [sendImmediateSMS] and the later one
    give the same result, ask the provider the same and differ in console
    lines only, as long as the messaging service is named by
    TWILIO_MESSAGING_SID or not at all.  When only
    TWILIO_MESSAGING_SERVICE_SID names it, the earlier one fails with
    "Twilio not configured" where the later one asks the provider. *)
Theorem sendImmediateSMS_revisions (env : Env) (provider : Provider)
    (to body : JSValue) (w : World) :
  let old := sendImmediateSMS_v1 env provider to body w in
  let new := sendImmediateSMS env provider to body w in
  (env_set (env_TWILIO_MESSAGING_SID env) = true \/
   env_set (env_TWILIO_MESSAGING_SERVICE_SID env) = false ->
   old.1 = new.1 /\
   lastSendByKey old.2 = lastSendByKey new.2 /\
   silent (trace old.2) = silent (trace new.2)) /\
  (env_set (env_TWILIO_MESSAGING_SID env) = false ->
   env_set (env_TWILIO_MESSAGING_SERVICE_SID env) = true ->
   env_set (env_TWILIO_ACCOUNT_SID env) = true ->
   env_set (env_TWILIO_AUTH_TOKEN env) = true ->
   ToBoolean to = true -> ToBoolean body = true ->
   old.1 = Failed (JString "Twilio not configured") /\
   new.1 = dispatch_result (provider (immediate_params env to body))).
Proof.
  cbv zeta.
  unfold immediate_params, sendImmediateSMS_v1, sendImmediateSMS, requireTwilio_v1,
    requireTwilio, twilioClient, TWILIO_MSID_v1, TWILIO_MSID, TWILIO_ACCOUNT_SID,
    TWILIO_AUTH_TOKEN, or_else, env_value, env_set, bind, ret, log.
  destruct (env_TWILIO_ACCOUNT_SID env) as [[|? ?]|], (env_TWILIO_AUTH_TOKEN env) as [[|? ?]|],
    (env_TWILIO_MESSAGING_SID env) as [[|? ?]|],
    (env_TWILIO_MESSAGING_SERVICE_SID env) as [[|? ?]|];
    cbn [ToBoolean String.eqb negb andb fst snd trace lastSendByKey];
    (split; [intros [H|H]; try discriminate H | intros; try discriminate]);
    try revisions_agree;
    destruct (ToBoolean to) eqn:Hto; cbn [negb fst snd trace lastSendByKey];
    try discriminate; try revisions_agree;
    destruct (ToBoolean body) eqn:Hbody; cbn [negb fst snd trace lastSendByKey];
    try discriminate; try revisions_agree;
    match goal with |- context [provider ?p] => destruct (provider p) end;
    cbn [fst snd trace lastSendByKey dispatch_result];
    revisions_agree.
Qed.

(** ** The banner in the browser *)

Lemma regroup_tail (a b m z t u s : string) :
  (a ++ b ++ m ++ (z ++ t ++ u) ++ s = (a ++ b ++ m) ++ z ++ t ++ u ++ s)%string.
Proof. rewrite !string_append_assoc. reflexivity. Qed.

Section BannerProperties.

Variable StringToNumber : string -> JSNum.
Variable toFixed3 : JSNum -> string.
Variable toUpperCase : string -> string.

(** X20: the banner the browser shows for a published event and the SMS
    of the same prediction print the same severe radius, "?" when the
    band is absent, although the event carries null there, as long as the
    radius is not a Number that the socket's JSON turns into null. *)
Theorem banner_radius_matches_sms (t_when : Z) (req : PredictRequest) (data : Outcome) :
  wire_value (band_radius_5psi data) = band_radius_5psi data ->
  let banner := red_alert_banner toUpperCase (wire_event (red_alert_event t_when req data)) in
  let sms := alert_body StringToNumber toFixed3 req (severeRadius data) in
  (exists pre, text banner =
     (pre ++ "Severe radius " ++ ToString (severeRadius data) ++ " km")%string) /\
  (exists pre, sms =
     (pre ++ body_severe_zone ++ ToString (severeRadius data) ++ "km. " ++ body_suffix)%string) /\
  at_ banner = toISOString t_when.
Proof.
  intros Hw. cbv zeta. split; [|split].
  - eexists. unfold red_alert_banner, wire_event, red_alert_event.
    cbn [text summary sum_severe_radius_km].
    rewrite severe_radius_km_lookup, severeRadius_lookup.
    destruct (nullish (band_radius_5psi data)) eqn:E.
    + reflexivity.
    + rewrite Hw. unfold coalesce. rewrite E. reflexivity.
  - unfold alert_body. eexists. apply regroup_tail.
  - reflexivity.
Qed.

End BannerProperties.

(** The sample outcome, its event seen in the browser. *)
Lemma banner_radius_matches_sms_run :
  exists pre,
    text (red_alert_banner (fun s => s)
            (wire_event (red_alert_event 1700000000000 sample_request sample_outcome))) =
    (pre ++ "Severe radius 12.3 km")%string.
Proof.
  exact (proj1 (banner_radius_matches_sms StringToNumber_decimal toFixed3_decimal (fun s => s)
                  1700000000000 sample_request sample_outcome eq_refl)).
Defined.

(** ** Allowed origins *)

Local Arguments String.append : simpl nomatch.

Lemma trimStart_shape_comma n :
  forall s, (String.length s <= n)%nat ->
    has_comma (trimStart s) = true -> has_comma s = true.
Proof.
  induction n as [|n IH]; intros [|c r] Hlen H; try exact H; cbn [String.length] in Hlen;
    [lia|].
  cbn [trimStart] in H. cbn [has_comma].
  destruct (space1 c).
  { rewrite (IH r) by (exact H || lia). apply orb_true_r. }
  destruct r as [|c1 r1]; [exact H|]. cbn [String.length] in Hlen.
  destruct (space2 c c1).
  { cbn [has_comma]. rewrite (IH r1) by (exact H || lia). rewrite !orb_true_r. reflexivity. }
  destruct r1 as [|c2 r2]; [exact H|]. cbn [String.length] in Hlen.
  destruct (space3 c c1 c2); [|exact H].
  cbn [has_comma]. rewrite (IH r2) by (exact H || lia). rewrite !orb_true_r. reflexivity.
Qed.

Lemma trimStart_not_ws n :
  forall s, (String.length s <= n)%nat -> starts_ws (trimStart s) = false.
Proof.
  induction n as [|n IH]; intros [|c r] Hlen; try reflexivity; cbn [String.length] in Hlen;
    [lia|].
  cbn [trimStart].
  destruct (space1 c) eqn:E1; [apply IH; lia|].
  destruct r as [|c1 r1]; [cbn; rewrite E1; reflexivity|]. cbn [String.length] in Hlen.
  destruct (space2 c c1) eqn:E2; [apply IH; lia|].
  destruct r1 as [|c2 r2]; [cbn; rewrite E1, E2; reflexivity|]. cbn [String.length] in Hlen.
  destruct (space3 c c1 c2) eqn:E3; [apply IH; lia|].
  cbn. rewrite E1, E2, E3. reflexivity.
Qed.

Lemma trimStart_id t : starts_ws t = false -> trimStart t = t.
Proof.
  destruct t as [|c [|c1 [|c2 r2]]]; cbn [starts_ws trimStart]; intros H;
    repeat match goal with
           | H : _ || _ = false |- _ => apply orb_false_elim in H; destruct H
           end;
    repeat match goal with H : _ = false |- _ => rewrite H; clear H end; reflexivity.
Qed.

Lemma trimEnd_shape_comma s : has_comma (trimEnd s) = true -> has_comma s = true.
Proof.
  induction s as [|c r IH]; [auto|]. cbn [trimEnd].
  destruct (all_ws (String c r)); [discriminate|].
  cbn [has_comma]. destruct (Ascii.eqb c ","); [reflexivity|]. exact IH.
Qed.

Lemma all_ws_app n :
  forall a, (String.length a <= n)%nat -> all_ws a = true ->
    forall b, all_ws b = true -> all_ws (a ++ b) = true.
Proof.
  induction n as [|n IH]; intros [|c r] Hlen Ha b Hb; try exact Hb;
    cbn [String.length] in Hlen; [lia|].
  cbn [all_ws] in Ha.
  destruct (space1 c) eqn:E1.
  { simpl. rewrite E1. apply IH; (assumption || lia). }
  destruct r as [|c1 r1]; [discriminate|]. cbn [String.length] in Hlen.
  destruct (space2 c c1) eqn:E2.
  { simpl. rewrite E1, E2. apply IH; (assumption || lia). }
  destruct r1 as [|c2 r2]; [discriminate|]. cbn [String.length] in Hlen.
  destruct (space3 c c1 c2) eqn:E3; [|discriminate].
  simpl. rewrite E1, E2, E3. apply IH; (assumption || lia).
Qed.

Lemma string_append_nil_r (a : string) : (a ++ EmptyString)%string = a.
Proof. induction a as [|c a IH]; [reflexivity|]. simpl. f_equal. exact IH. Qed.

Lemma all_ws_trimEnd r :
  forall x, all_ws (x ++ trimEnd r) = true -> all_ws (x ++ r) = true.
Proof.
  induction r as [|c r IH]; intros x H; [exact H|].
  cbn [trimEnd] in H. destruct (all_ws (String c r)) eqn:E.
  - rewrite string_append_nil_r in H.
    apply (all_ws_app (String.length x)); [lia | exact H | exact E].
  - replace (x ++ String c (trimEnd r))%string
      with ((x ++ String c EmptyString) ++ trimEnd r)%string in H
      by (rewrite string_append_assoc; reflexivity).
    apply IH in H. rewrite string_append_assoc in H. exact H.
Qed.

Lemma trimEnd_idem s : trimEnd (trimEnd s) = trimEnd s.
Proof.
  induction s as [|c r IH]; [reflexivity|].
  cbn [trimEnd]. destruct (all_ws (String c r)) eqn:E; [reflexivity|].
  cbn [trimEnd]. fold (trimEnd (trimEnd r)).
  destruct (all_ws (String c (trimEnd r))) eqn:E'.
  - pose proof (all_ws_trimEnd r (String c EmptyString) E') as H.
    change (all_ws (String c r) = true) in H. rewrite E in H. discriminate.
  - rewrite IH. reflexivity.
Qed.

Lemma starts_ws_trimEnd t : starts_ws (trimEnd t) = true -> starts_ws t = true.
Proof.
  destruct t as [|c r]; [auto|]. cbn [trimEnd].
  destruct (all_ws (String c r)); [discriminate|].
  cbn [starts_ws]. destruct (space1 c); [reflexivity|]. cbn [orb].
  destruct r as [|c1 r1]; [auto|]. cbn [trimEnd].
  destruct (all_ws (String c1 r1)); [discriminate|].
  destruct (space2 c c1); [reflexivity|]. cbn [orb].
  destruct r1 as [|c2 r2]; [auto|]. cbn [trimEnd].
  destruct (all_ws (String c2 r2)); [discriminate | auto].
Qed.

Lemma trim_idem s : trim (trim s) = trim s.
Proof.
  unfold trim.
  rewrite (trimStart_id (trimEnd (trimStart s))); [apply trimEnd_idem|].
  destruct (starts_ws (trimEnd (trimStart s))) eqn:E; [|reflexivity].
  apply starts_ws_trimEnd in E.
  rewrite (trimStart_not_ws (String.length s)) in E by lia. discriminate.
Qed.

Lemma trim_shape_comma s : has_comma s = false -> has_comma (trim s) = false.
Proof.
  intros H. unfold trim.
  destruct (has_comma (trimEnd (trimStart s))) eqn:E; [|reflexivity].
  apply trimEnd_shape_comma, (trimStart_shape_comma (String.length s)) in E; [|lia].
  congruence.
Qed.

Lemma split_comma_pieces s : Forall (fun x => has_comma x = false) (split_comma s).
Proof.
  induction s as [|c r IH]; cbn [split_comma]; [repeat constructor|].
  destruct (Ascii.eqb c ",") eqn:E; [constructor; [reflexivity | exact IH]|].
  destruct (split_comma r) as [|h t]; [repeat constructor; cbn; rewrite E; reflexivity|].
  inversion IH as [|? ? Hh Ht]; subst.
  constructor; [cbn; rewrite E; exact Hh | exact Ht].
Qed.

Lemma split_comma_not_nil s : split_comma s <> [].
Proof.
  destruct s as [|c r]; cbn [split_comma]; [discriminate|].
  destruct (Ascii.eqb c ","); [discriminate|].
  destruct (split_comma r); discriminate.
Qed.

Lemma split_comma_one p : has_comma p = false -> split_comma p = [p].
Proof.
  induction p as [|c p IH]; [reflexivity|]. cbn [has_comma split_comma].
  intros H. apply orb_false_elim in H. destruct H as [Hc Hp].
  rewrite Hc, (IH Hp). reflexivity.
Qed.

Lemma split_comma_head p t :
  has_comma p = false -> split_comma (p ++ "," ++ t) = p :: split_comma t.
Proof.
  induction p as [|c p IH]; [reflexivity|]. cbn [has_comma].
  intros H. apply orb_false_elim in H. destruct H as [Hc Hp].
  change (split_comma (String c (p ++ "," ++ t)) = String c p :: split_comma t).
  cbn [split_comma]. rewrite Hc, (IH Hp). reflexivity.
Qed.

(** Splitting at the commas gives back the pieces that were joined. *)
Lemma split_comma_join pieces :
  pieces <> [] -> Forall (fun p => has_comma p = false) pieces ->
  split_comma (join_comma pieces) = pieces.
Proof.
  induction pieces as [|p rest IH]; [congruence|]. intros _ HF.
  inversion HF as [|? ? Hp Hrest]; subst.
  destruct rest as [|q rest]; [exact (split_comma_one p Hp)|].
  change (split_comma (p ++ "," ++ join_comma (q :: rest)) = p :: q :: rest).
  rewrite (split_comma_head _ _ Hp), IH; [reflexivity | discriminate | exact Hrest].
Qed.

(** Every text is the join of its pieces. *)
Lemma join_comma_split s : join_comma (split_comma s) = s.
Proof.
  induction s as [|c r IH]; [reflexivity|]. cbn [split_comma].
  pose proof (split_comma_not_nil r) as Hne.
  destruct (Ascii.eqb_spec c ",") as [->|_].
  - destruct (split_comma r) as [|h t]; [congruence|].
    change (String "," (join_comma (h :: t)) = String "," r). rewrite IH. reflexivity.
  - destruct (split_comma r) as [|h t]; [congruence|].
    rewrite <- IH. destruct t; reflexivity.
Qed.

Lemma trimStart_split n :
  forall s, (String.length s <= n)%nat ->
    exists l, s = (l ++ trimStart s)%string /\ all_ws l = true.
Proof.
  induction n as [|n IH]; intros [|c r] Hlen; try (exists EmptyString; split; reflexivity);
    cbn [String.length] in Hlen; [lia|].
  cbn [trimStart].
  destruct (space1 c) eqn:E1.
  { destruct (IH r) as (l & Hl & Hw); [lia|].
    exists (String c l). split; [simpl; f_equal; exact Hl|].
    cbn [all_ws]. rewrite E1. exact Hw. }
  destruct r as [|c1 r1]; [exists EmptyString; split; reflexivity|].
  cbn [String.length] in Hlen.
  destruct (space2 c c1) eqn:E2.
  { destruct (IH r1) as (l & Hl & Hw); [lia|].
    exists (String c (String c1 l)). split; [simpl; do 2 f_equal; exact Hl|].
    cbn [all_ws]. rewrite E1, E2. exact Hw. }
  destruct r1 as [|c2 r2]; [exists EmptyString; split; reflexivity|].
  cbn [String.length] in Hlen.
  destruct (space3 c c1 c2) eqn:E3; [|exists EmptyString; split; reflexivity].
  destruct (IH r2) as (l & Hl & Hw); [lia|].
  exists (String c (String c1 (String c2 l))). split; [simpl; do 3 f_equal; exact Hl|].
  cbn [all_ws]. rewrite E1, E2, E3. exact Hw.
Qed.

Lemma trimEnd_split s : exists r, s = (trimEnd s ++ r)%string /\ all_ws r = true.
Proof.
  induction s as [|c s IH]; [exists EmptyString; split; reflexivity|].
  cbn [trimEnd]. destruct (all_ws (String c s)) eqn:E.
  - exists (String c s). split; [reflexivity | exact E].
  - destruct IH as (r & Hr & Hw). exists r. split; [simpl; f_equal; exact Hr | exact Hw].
Qed.

Lemma trimEnd_no_ws_suffix s :
  forall a w, trimEnd s = (a ++ w)%string -> all_ws w = true -> w = EmptyString.
Proof.
  induction s as [|c s IH]; intros a w H Hw.
  - destruct a; [exact (eq_sym H) | discriminate].
  - cbn [trimEnd] in H. destruct (all_ws (String c s)) eqn:E.
    + destruct a; [exact (eq_sym H) | discriminate].
    + destruct a as [|c' a].
      * simpl in H. subst w.
        pose proof (all_ws_trimEnd s (String c EmptyString)) as Hs.
        change (all_ws (String c (trimEnd s)) = true -> all_ws (String c s) = true) in Hs.
        rewrite (Hs Hw) in E. discriminate.
      * simpl in H. injection H as _ H. exact (IH a w H Hw).
Qed.

(** [trim] takes white space off the two ends and nothing else. *)
Lemma trim_ends p :
  exists l r, p = (l ++ trim p ++ r)%string /\ all_ws l = true /\ all_ws r = true.
Proof.
  destruct (trimStart_split (String.length p) p) as (l & Hl & Hwl); [lia|].
  destruct (trimEnd_split (trimStart p)) as (r & Hr & Hwr).
  exists l, r. unfold trim. rewrite <- Hr. auto.
Qed.

Lemma trim_not_ws_start p : starts_ws (trim p) = false.
Proof.
  unfold trim. destruct (starts_ws (trimEnd (trimStart p))) eqn:E; [|reflexivity].
  apply starts_ws_trimEnd in E.
  rewrite (trimStart_not_ws (String.length p)) in E by lia. discriminate.
Qed.

Lemma ORIGINS_set s :
  env_set (Some s) = true ->
  ORIGINS (Some s) =
  List.filter (fun o => negb (String.eqb o EmptyString)) (List.map trim (split_comma s)).
Proof. destruct s; [discriminate | reflexivity]. Qed.

(** X21: the allowed origins are the pieces of CLIENT_ORIGIN between its
    commas, each with the white space at its two ends removed, in their
    order, the empty ones dropped.  When the variable holds the pieces
    [pieces] joined by commas, [ORIGINS] is the list of their [trim]s
    without the empty ones, and every value of the variable is such a
    join; [trim p] is [p] less a run of white space at each end, and
    neither starts nor ends with white space; so no origin is empty, holds
    a comma or differs from its own [trim]; an unset or empty variable
    gives the one origin http://localhost:3000. *)
Theorem ORIGINS_entries :
  (forall pieces, pieces <> [] -> Forall (fun p => has_comma p = false) pieces ->
     env_set (Some (join_comma pieces)) = true ->
     ORIGINS (Some (join_comma pieces)) =
     List.filter (fun o => negb (String.eqb o EmptyString)) (List.map trim pieces)) /\
  (forall s, exists pieces,
     pieces <> [] /\ Forall (fun p => has_comma p = false) pieces /\ s = join_comma pieces) /\
  (forall p,
     (exists l r, p = (l ++ trim p ++ r)%string /\ all_ws l = true /\ all_ws r = true) /\
     starts_ws (trim p) = false /\
     (forall a w, trim p = (a ++ w)%string -> all_ws w = true -> w = EmptyString)) /\
  (forall client_origin,
     Forall (fun o => o <> EmptyString /\ has_comma o = false /\ trim o = o)
       (ORIGINS client_origin)) /\
  (forall client_origin,
     env_set client_origin = false -> ORIGINS client_origin = ["http://localhost:3000"%string]).
Proof.
  split; [|split; [|split; [|split]]].
  - intros pieces Hne HF Hset.
    rewrite (ORIGINS_set _ Hset), (split_comma_join _ Hne HF). reflexivity.
  - intros s. exists (split_comma s).
    split; [apply split_comma_not_nil |
            split; [apply split_comma_pieces | symmetry; apply join_comma_split]].
  - intros p. split; [apply trim_ends | split; [apply trim_not_ws_start|]].
    unfold trim. apply trimEnd_no_ws_suffix.
  - intros client_origin. unfold ORIGINS. apply List.Forall_forall. intros o Ho.
    apply List.filter_In in Ho. destruct Ho as [Ho Hne].
    apply List.in_map_iff in Ho. destruct Ho as (x & <- & Hx).
    pose proof (split_comma_pieces
      (ToString (or_else (env_value client_origin) (JString "http://localhost:3000")))) as Hp.
    rewrite List.Forall_forall in Hp. specialize (Hp x Hx).
    split; [|split].
    + intros E. rewrite E in Hne. discriminate.
    + apply trim_shape_comma. exact Hp.
    + apply trim_idem.
  - intros client_origin. unfold env_set. destruct client_origin as [[|c s]|]; intros H;
      try discriminate; vm_compute; reflexivity.
Qed.

(** Three pieces, one of them blank, with spaces around them. *)
Lemma ORIGINS_entries_run :
  ORIGINS (Some " https://a.example , ,https://b.example") =
  ["https://a.example"; "https://b.example"]%string.
Proof.
  exact (proj1 ORIGINS_entries
           [" https://a.example "; " "; "https://b.example"]%string
           ltac:(discriminate) ltac:(repeat constructor) eq_refl).
Defined.

Example ORIGINS_sample :
  ORIGINS (Some " https://a.example , ,https://b.example,  ") =
  ["https://a.example"; "https://b.example"]%string.
Proof. vm_compute. reflexivity. Qed.
